(** * The Price Is Right: scoring rule and asymmetric loss functions

    Shallow embedding of the notebook [custom_loss/notebooks/Price is Right]:
    the class [price_is_right] (cell 3) and the four loss functions
    [overprediction_penalty_objective], [overprediction_penalty_squared],
    [overprediction_penalty_absolute] and [overprediction_penalty_custom]
    (cells 12, 14, 16 and 18, identical up to the value of [penalty]).
    [print_results] only runs [calculate_winnings] and formats its three
    attributes; the experiment runner and the data loading belong to
    LightGBM, scikit-learn and pandas and are not part of the embedding.

    Numbers.  The truths and predictions are float64 values.  They are
    modelled as exact rationals [Q] compared with [==]: rounding, overflow
    and the special values inf and nan are outside the model, except for
    the nan that [np.mean] gives on an empty array, which is kept as [NaN].
    The two columns that [calculate_winnings] creates with the integer 0
    are int64 columns and can stay so; their dtype and the wrap-around of
    an int64 sum are modelled.
    A division by a zero truth is therefore outside the model as well
    (Rocq's [x / 0] is [0], pandas gives inf or nan); statements about
    the normalized winnings carry the hypothesis that the truth is not zero. *)

From Stdlib Require Import QArith Qabs Qround Lqa Lia String.
From stdpp Require Import base list.

Local Open Scope Q_scope.

(** ** Exceptions and results *)

Inductive exn : Type :=
| ValueError.  (* operands could not be broadcast together *)

Inductive result (A : Type) : Type :=
| Ok (a : A)
| Raise (e : exn).
Arguments Ok {A} a.
Arguments Raise {A} e.

#[global] Instance result_ret : MRet result := fun A a => Ok a.

#[global] Instance result_bind : MBind result := fun A B k r =>
  match r with
  | Ok a => k a
  | Raise e => Raise e
  end.

Definition is_ok {A : Type} (r : result A) : bool :=
  match r with Ok _ => true | Raise _ => false end.

(** ** The part of numpy the notebook uses, on arrays of one dimension *)

Module np.

(** A float64 result that may be nan. *)
Inductive float : Type :=
| Finite (x : Q)
| NaN.

(** An argument of [np.where]: a Python scalar or an array. *)
Inductive operand : Type :=
| Scalar (x : Q)
| Array (a : list Q).

(** Broadcasting of two lengths: equal, or one of them is 1. *)
Definition broadcast_shapes (n m : nat) : result nat :=
  if (n =? m)%nat then Ok n
  else if (n =? 1)%nat then Ok m
  else if (m =? 1)%nat then Ok n
  else Raise ValueError.

(** An array of length 1 stretches to length [n]; any other array is
    used as it is (its length is [n] when the shapes were compatible). *)
Definition broadcast_to {A : Type} (n : nat) (a : list A) : list A :=
  match a with
  | [x] => replicate n x
  | _ => a
  end.

Definition operand_shape (x : operand) : nat :=
  match x with
  | Scalar _ => 1%nat
  | Array a => length a
  end.

Definition operand_to (n : nat) (x : operand) : list Q :=
  match x with
  | Scalar v => replicate n v
  | Array a => broadcast_to n a
  end.

(** A binary elementwise operation, [a - b] and the like. *)
Definition ufunc2 {A B C : Type} (f : A -> B -> C) (a : list A) (b : list B)
  : result (list C) :=
  n ← broadcast_shapes (length a) (length b);
  Ok (zip_with f (broadcast_to n a) (broadcast_to n b)).

Definition subtract (a b : list Q) : result (list Q) := ufunc2 Qminus a b.

(** [a.astype("float")]: the values are kept. *)
Definition astype_float (a : list Q) : list Q := a.

(** [a < c] for a scalar [c]. *)
Definition less_scalar (a : list Q) (c : Q) : list bool :=
  (fun x => negb (Qle_bool c x)) <$> a.

Definition select (c : bool) (x y : Q) : Q := if c then x else y.

(** [np.where(cond, x, y)]. *)
Definition where_ (cond : list bool) (x y : operand) : result (list Q) :=
  n1 ← broadcast_shapes (length cond) (operand_shape x);
  n ← broadcast_shapes n1 (operand_shape y);
  Ok (zip_with (fun c xy => select c xy.1 xy.2)
        (broadcast_to n cond)
        (zip (operand_to n x) (operand_to n y))).

Definition sum (a : list Q) : Q := foldr Qplus 0 a.

(** [np.mean(a)]: nan on an empty array (with a warning, no exception). *)
Definition mean (a : list Q) : float :=
  match a with
  | [] => NaN
  | _ => Finite (sum a / inject_Z (Z.of_nat (length a)))
  end.

End np.

(** ** Cell 12 (and 14, 16, 18): the loss functions

    [penalty] is a global of the notebook, rebound to 3, 5, 10 and 12
    between the experiment batches; the functions read it when they are
    called.  It is the first argument here. *)

Definition penalty_cell12 : Q := 3.
Definition penalty_cell14 : Q := 5.
Definition penalty_cell16 : Q := 10.
Definition penalty_cell18 : Q := 12.

Definition overprediction_penalty_objective (penalty : Q) (truth pred : list Q)
  : result (list Q * list Q) :=
  d ← np.subtract truth pred;
  let err := np.astype_float d in
  grad ← np.where_ (np.less_scalar err 0)
            (np.Array ((fun e => -2 * penalty * e) <$> err))
            (np.Array ((fun e => -2 * e) <$> err));
  hess ← np.where_ (np.less_scalar err 0)
            (np.Scalar (2 * penalty)) (np.Scalar 2);
  Ok (grad, hess).

Definition overprediction_penalty_squared (penalty : Q) (truth pred : list Q)
  : result (string * np.float * bool) :=
  d ← np.subtract truth pred;
  let err := np.astype_float d in
  loss ← np.where_ (np.less_scalar err 0)
            (np.Array ((fun e => (e ^ 2) * penalty) <$> err))
            (np.Array ((fun e => e ^ 2) <$> err));
  Ok ("overprediction_squared_penalty"%string, np.mean loss, false).

Definition overprediction_penalty_absolute (penalty : Q) (truth pred : list Q)
  : result (string * np.float * bool) :=
  d ← np.subtract truth pred;
  let err := np.astype_float d in
  loss ← np.where_ (np.less_scalar err 0)
            (np.Array ((fun e => Qabs e * penalty) <$> err))
            (np.Array (Qabs <$> err));
  Ok ("overprediction_squared_penalty"%string, np.mean loss, false).

Definition overprediction_penalty_custom (penalty : Q) (truth pred : list Q)
  : result (string * np.float * bool) :=
  d ← np.subtract truth pred;
  let err := np.astype_float d in
  loss ← np.where_ (np.less_scalar err 0)
            (np.Array (Qopp <$> pred)) (np.Scalar 0);
  Ok ("custom_penalty"%string, np.mean loss, false).

(** The metric name an evaluation function returns, when it returns. *)
Definition returned_name (r : result (string * np.float * bool)) : result string :=
  x ← r; Ok x.1.1.

(** ** The part of pandas the notebook uses

    A frame with the four columns that [calculate_winnings] builds; all
    columns of a frame have the same length and the default index, so
    operations between columns are position by position.

    The columns [truth] and [pred] hold the float64 values given to the
    constructor.  The columns [winnings] and [winning_percent] are
    created by the assignment of the integer 0 and are int64 columns at
    first: a column carries its dtype, because the sum of an int64
    column wraps around at 2^63 while the sum of a float64 column is the
    (idealised) exact sum. *)

Module pd.

Inductive dtype : Type :=
| int64
| float64.

(** A numeric column.  The values of an [int64] column are whole numbers
    from [int64_min] to [int64_max]. *)
Record Series : Type := mkSeries {
  dtype_of : dtype;
  values : list Q
}.

Record DataFrame : Type := mkDataFrame {
  truth : list Q;
  pred : list Q;
  winnings : Series;
  winning_percent : Series
}.

Definition int64_min : Z := - 2 ^ 63.
Definition int64_max : Z := 2 ^ 63 - 1.

(** Addition of int64 values wraps around. *)
Definition wrap_int64 (z : Z) : Z := (z + 2 ^ 63) mod 2 ^ 64 - 2 ^ 63.

(** A float64 value that an int64 column holds without loss: a whole
    number within the int64 range. *)
Definition holds_int64 (x : Q) : bool :=
  Qeq_bool (inject_Z (Qfloor x)) x
  && (int64_min <=? Qfloor x)%Z && (Qfloor x <=? int64_max)%Z.

(** [df[col] = c] for a Python integer [c] and a frame of [n] rows. *)
Definition full_int64 (n : nat) (c : Z) : Series :=
  mkSeries int64 (replicate n (inject_Z c)).

(** [a <= b] between two columns. *)
Definition le (a b : list Q) : list bool := zip_with Qle_bool a b.

(** [a / b] between two columns. *)
Definition truediv (a b : list Q) : list Q := zip_with Qdiv a b.

(** [a == c] for a scalar [c]. *)
Definition eq_scalar (a : Series) (c : Q) : list bool :=
  (fun x => Qeq_bool x c) <$> values a.

(** The rows of a column kept by a boolean mask. *)
Definition take {A : Type} (mask : list bool) (col : list A) : list A :=
  (List.filter (fun mx : bool * A => mx.1) (zip mask col)).*2.

(** Whether a mask selects every row of a frame that has rows. *)
Definition selects_all (mask : list bool) : bool :=
  match mask with
  | [] => false
  | _ => forallb (fun m : bool => m) mask
  end.

(** [df.loc[mask, col] = value] for a float64 column [value] of the same
    frame: the rows where [mask] holds take the entry of [value] at the
    same position, the others keep theirs.  An int64 column becomes
    float64 when every row is assigned (the column is replaced) or when
    some assigned value is not a whole number of the int64 range;
    otherwise it stays int64. *)
Definition loc_setitem (mask : list bool) (col : Series) (value : list Q) : Series :=
  let new_values :=
    zip_with (fun (m : bool) cv => if m then cv.2 else cv.1) mask
      (zip (values col) value) in
  match dtype_of col with
  | float64 => mkSeries float64 new_values
  | int64 =>
      if selects_all mask then mkSeries float64 new_values
      else if forallb holds_int64 (take mask value) then mkSeries int64 new_values
      else mkSeries float64 new_values
  end.

(** [col.sum()]: with wrap-around on an int64 column. *)
Definition sum (col : Series) : Q :=
  match dtype_of col with
  | float64 => foldr Qplus 0 (values col)
  | int64 => inject_Z (wrap_int64 (foldr Z.add 0%Z (Qfloor <$> values col)))
  end.

Definition take_series (mask : list bool) (col : Series) : Series :=
  mkSeries (dtype_of col) (take mask (values col)).

(** [df[mask]]. *)
Definition getitem_mask (mask : list bool) (df : DataFrame) : DataFrame :=
  {| truth := take mask (truth df);
     pred := take mask (pred df);
     winnings := take_series mask (winnings df);
     winning_percent := take_series mask (winning_percent df) |}.

(** [df.shape[0]]: the number of rows. *)
Definition shape0 (df : DataFrame) : nat := length (truth df).

End pd.

(** ** Cell 3: the class [price_is_right]

    An object holds [truths] and [preds]; the attributes [winnings],
    [winning_percent] and [overpredicted] exist only once
    [calculate_winnings] has run. *)

Module price_is_right.

Record t : Type := mk {
  truths : list Q;
  preds : list Q;
  winnings : option Q;
  winning_percent : option Q;
  overpredicted : option nat
}.

Definition __init__ (truth preds : list Q) : t :=
  {| truths := truth; preds := preds;
     winnings := None; winning_percent := None; overpredicted := None |}.

(** The local [winning_df] of [calculate_winnings] after the two
    [.loc] assignments.  [zip] stops at the shorter of its arguments. *)
Definition winning_df (self : t) : pd.DataFrame :=
  let rows := zip (truths self) (preds self) in
  let truth := rows.*1 in
  let pred := rows.*2 in
  let winnings := pd.full_int64 (length rows) 0 in
  let winning_percent := pd.full_int64 (length rows) 0 in
  let winnings := pd.loc_setitem (pd.le pred truth) winnings pred in
  let winning_percent :=
    pd.loc_setitem (pd.le pred truth) winning_percent (pd.truediv pred truth) in
  pd.mkDataFrame truth pred winnings winning_percent.

Definition calculate_winnings (self : t) : t :=
  let winning_df := winning_df self in
  {| truths := truths self;
     preds := preds self;
     winnings := Some (pd.sum (pd.winnings winning_df));
     winning_percent := Some (pd.sum (pd.winning_percent winning_df));
     overpredicted :=
       Some (pd.shape0
               (pd.getitem_mask (pd.eq_scalar (pd.winnings winning_df) 0)
                  winning_df)) |}.

End price_is_right.

(** What the two [.loc] assignments of [calculate_winnings] leave in the
    row of the pair [(truth, pred)]: the initial 0 where the mask
    [pred <= truth] is false, the assigned value where it is true. *)
Definition row_winnings (tp : Q * Q) : Q :=
  if Qle_bool tp.2 tp.1 then tp.2 else 0.

Definition row_winning_percent (tp : Q * Q) : Q :=
  if Qle_bool tp.2 tp.1 then tp.2 / tp.1 else 0.

(** ** Cell 3, continued: [print_results]

    An f-string is kept as its pieces: the literal text and the values
    formatted into it (the decimal rendering of a float is not modelled).
    The standard output is the list of lines printed, in order.  Reading
    an attribute that was never assigned raises [AttributeError]: that is
    [None] here. *)

Module fstring.

Inductive piece : Type :=
| Text (s : string)
| Int (n : nat)
| Float (x : Q).

Definition t : Type := list piece.

End fstring.

Definition print_results (self : price_is_right.t)
  : option (price_is_right.t * list fstring.t) :=
  let self := price_is_right.calculate_winnings self in
  overpredicted ← price_is_right.overpredicted self;
  let line1 := [fstring.Text "OVERPREDICTED: "; fstring.Int overpredicted;
                fstring.Text "/";
                fstring.Int (length (price_is_right.preds self))] in
  winning_percent ← price_is_right.winning_percent self;
  let line2 := [fstring.Text "STANDARDIZED WINNINGS: ";
                fstring.Float winning_percent] in
  winnings ← price_is_right.winnings self;
  let line3 := [fstring.Text "TOTAL WINNINGS: "; fstring.Float winnings] in
  Some (self, [line1; line2; line3]).

(** ** Reference definitions, written after the specification

    The per-pair formulas of the specification's table and of its
    scoring rule, to compare with what the code computes. *)

Module Spec.

(** Asymmetric-Squared Eval: err^2 * P when err < 0, err^2 otherwise. *)
Definition squared_loss (P : Q) (tp : Q * Q) : Q :=
  let err := tp.1 - tp.2 in
  if Qlt_le_dec err 0 then err ^ 2 * P else err ^ 2.

(** Asymmetric-Absolute Eval: abs(err) * P when err < 0, abs(err)
    otherwise. *)
Definition absolute_loss (P : Q) (tp : Q * Q) : Q :=
  let err := tp.1 - tp.2 in
  if Qlt_le_dec err 0 then Qabs err * P else Qabs err.

(** Winnings-Approximation Eval: -prediction when err < 0, 0 otherwise. *)
Definition winnings_loss (tp : Q * Q) : Q :=
  let err := tp.1 - tp.2 in
  if Qlt_le_dec err 0 then - tp.2 else 0.

Fixpoint total (l : list Q) : Q :=
  match l with
  | [] => 0
  | x :: l => x + total l
  end.

(** The arithmetic mean of a non-empty sequence. *)
Definition arithmetic_mean (l : list Q) : Q :=
  total l / inject_Z (Z.of_nat (length l)).

(** Winnings of a pair: zero when over-predicting, else the prediction. *)
Definition reward (tp : Q * Q) : Q :=
  if Qlt_le_dec tp.1 tp.2 then 0 else tp.2.

(** Normalized winnings of a pair: the winnings divided by the truth. *)
Definition normalized_reward (tp : Q * Q) : Q :=
  if Qlt_le_dec tp.1 tp.2 then 0 else tp.2 / tp.1.

(** A whole number. *)
Definition whole (x : Q) : Prop := inject_Z (Qfloor x) == x.

(** A total that an int64 sum reports without wrapping around. *)
Definition in_int64 (x : Q) : Prop :=
  inject_Z pd.int64_min <= x /\ x <= inject_Z pd.int64_max.

(** Both totals of a pair set are within the int64 range. *)
Definition report_in_int64 (truths preds : list Q) : Prop :=
  in_int64 (total (reward <$> zip truths preds))
  /\ in_int64 (total (normalized_reward <$> zip truths preds)).

(** Over-prediction: a prediction strictly greater than its truth. *)
Definition over_prediction (tp : Q * Q) : bool :=
  if Qlt_le_dec tp.1 tp.2 then true else false.

(** The number of over-predictions of a pair set. *)
Definition over_predictions (truths preds : list Q) : nat :=
  length (List.filter over_prediction (zip truths preds)).

End Spec.

(** * Properties *)

(** ** Comparisons on rationals *)

Lemma lt0_true (x : Q) : negb (Qle_bool 0 x) = true <-> x < 0.
Proof.
  rewrite negb_true_iff, <- not_true_iff_false, Qle_bool_iff.
  split; [apply Qnot_le_lt | apply Qlt_not_le].
Qed.

Lemma lt0_false (x : Q) : negb (Qle_bool 0 x) = false <-> 0 <= x.
Proof. rewrite negb_false_iff. apply Qle_bool_iff. Qed.

Lemma le_bool_false (x y : Q) : Qle_bool x y = false <-> y < x.
Proof.
  rewrite <- not_true_iff_false, Qle_bool_iff.
  split; [apply Qnot_le_lt | apply Qlt_not_le].
Qed.

(** [sign_case e H] splits on the sign of [e] and rewrites the test
    [e < 0] of the code with its value. *)
Ltac sign_case e H :=
  destruct (Qlt_le_dec e 0) as [H|H];
  [apply lt0_true in H | apply lt0_false in H];
  rewrite H.

(** [mask_case t p H] does the same for the mask [p <= t] of the scorer. *)
Ltac mask_case t p H :=
  destruct (Qlt_le_dec t p) as [H|H];
  [apply le_bool_false in H | apply Qle_bool_iff in H];
  rewrite H.

(** ** Broadcasting *)

Section Broadcasting.

Lemma broadcast_shapes_same (n : nat) : np.broadcast_shapes n n = Ok n.
Proof. unfold np.broadcast_shapes. by rewrite Nat.eqb_refl. Qed.

Lemma broadcast_shapes_one_r (n : nat) : np.broadcast_shapes n 1 = Ok n.
Proof.
  unfold np.broadcast_shapes. destruct (Nat.eqb_spec n 1) as [->|]; done.
Qed.

Lemma broadcast_shapes_one_l (m : nat) : np.broadcast_shapes 1 m = Ok m.
Proof.
  unfold np.broadcast_shapes. destruct (Nat.eqb_spec 1 m) as [<-|]; done.
Qed.

Lemma broadcast_shapes_raise (n m : nat) :
  n <> m -> n <> 1%nat -> m <> 1%nat ->
  np.broadcast_shapes n m = Raise ValueError.
Proof.
  intros Hnm Hn Hm. unfold np.broadcast_shapes.
  destruct (Nat.eqb_spec n m); [done|].
  destruct (Nat.eqb_spec n 1); [done|].
  destruct (Nat.eqb_spec m 1); done.
Qed.

Lemma broadcast_shapes_ok (n m k : nat) :
  np.broadcast_shapes n m = Ok k ->
  (n = m /\ k = n) \/ (n = 1%nat /\ k = m) \/ (m = 1%nat /\ k = n).
Proof.
  unfold np.broadcast_shapes.
  destruct (Nat.eqb_spec n m); [intros [= <-]; auto|].
  destruct (Nat.eqb_spec n 1); [intros [= <-]; auto|].
  destruct (Nat.eqb_spec m 1); [intros [= <-]; auto|done].
Qed.

Context {A : Type}.

Lemma broadcast_to_same (a : list A) : np.broadcast_to (length a) a = a.
Proof. by destruct a as [|x [|y a]]. Qed.

Lemma broadcast_to_length_l (n m k : nat) (a : list A) :
  np.broadcast_shapes n m = Ok k -> length a = n ->
  length (np.broadcast_to k a) = k.
Proof.
  intros Hk Ha. destruct a as [|x [|y a]]; simpl in *.
  - apply broadcast_shapes_ok in Hk. lia.
  - apply length_replicate.
  - apply broadcast_shapes_ok in Hk. lia.
Qed.

Lemma broadcast_to_length_r (n m k : nat) (b : list A) :
  np.broadcast_shapes n m = Ok k -> length b = m ->
  length (np.broadcast_to k b) = k.
Proof.
  intros Hk Hb. destruct b as [|x [|y b]]; simpl in *.
  - apply broadcast_shapes_ok in Hk. lia.
  - apply length_replicate.
  - apply broadcast_shapes_ok in Hk. lia.
Qed.

End Broadcasting.

(** ** Elementwise operations on arrays of equal length *)

Lemma subtract_same_length (a b : list Q) :
  length a = length b -> np.subtract a b = Ok (zip_with Qminus a b).
Proof.
  intros Hab. unfold np.subtract, np.ufunc2.
  rewrite <- Hab, broadcast_shapes_same. simpl.
  rewrite broadcast_to_same. rewrite Hab at 1. by rewrite broadcast_to_same.
Qed.

Lemma subtract_raise (a b : list Q) :
  length a <> length b -> length a <> 1%nat -> length b <> 1%nat ->
  np.subtract a b = Raise ValueError.
Proof.
  intros. unfold np.subtract, np.ufunc2.
  by rewrite broadcast_shapes_raise.
Qed.

Lemma where_arrays (cond : list bool) (x y : list Q) :
  length x = length cond -> length y = length cond ->
  np.where_ cond (np.Array x) (np.Array y)
  = Ok (zip_with (fun c xy => np.select c xy.1 xy.2) cond (zip x y)).
Proof.
  intros Hx Hy. unfold np.where_. simpl.
  rewrite Hx, broadcast_shapes_same. simpl.
  rewrite Hy, broadcast_shapes_same. simpl.
  rewrite broadcast_to_same.
  rewrite <- Hx at 1. rewrite broadcast_to_same.
  rewrite <- Hy. by rewrite broadcast_to_same.
Qed.

Lemma where_scalars (cond : list bool) (x y : Q) :
  np.where_ cond (np.Scalar x) (np.Scalar y)
  = Ok (zip_with (fun c xy => np.select c xy.1 xy.2) cond
          (zip (replicate (length cond) x) (replicate (length cond) y))).
Proof.
  unfold np.where_. simpl.
  rewrite broadcast_shapes_one_r. simpl.
  rewrite broadcast_shapes_one_r. simpl.
  by rewrite broadcast_to_same.
Qed.

Lemma where_array_scalar (cond : list bool) (x : list Q) (y : Q) :
  length x = length cond ->
  np.where_ cond (np.Array x) (np.Scalar y)
  = Ok (zip_with (fun c xy => np.select c xy.1 xy.2) cond
          (zip x (replicate (length cond) y))).
Proof.
  intros Hx. unfold np.where_. simpl.
  rewrite Hx, broadcast_shapes_same. simpl.
  rewrite broadcast_shapes_one_r. simpl.
  rewrite broadcast_to_same.
  rewrite <- Hx at 1. by rewrite broadcast_to_same.
Qed.

(** The result of [np.where] on an error array and two arrays derived
    from it, entry by entry. *)
Lemma where_lookup (cond : list bool) (x y : list Q) (i : nat) (c : bool) (u v : Q) :
  cond !! i = Some c -> x !! i = Some u -> y !! i = Some v ->
  zip_with (fun c xy => np.select c xy.1 xy.2) cond (zip x y) !! i
  = Some (np.select c u v).
Proof.
  intros Hc Hx Hy. rewrite !lookup_zip_with, Hc, Hx, Hy. done.
Qed.

Lemma less_scalar_lookup (a : list Q) (c : Q) (i : nat) (x : Q) :
  a !! i = Some x ->
  np.less_scalar a c !! i = Some (negb (Qle_bool c x)).
Proof. intros Ha. unfold np.less_scalar. by rewrite list_lookup_fmap, Ha. Qed.

Lemma less_scalar_length (a : list Q) (c : Q) :
  length (np.less_scalar a c) = length a.
Proof. unfold np.less_scalar. apply length_fmap. Qed.

(** ** The Asymmetric-Squared Objective *)

Lemma objective_same_length (P : Q) (truth pred : list Q) :
  length truth = length pred ->
  let err := zip_with Qminus truth pred in
  overprediction_penalty_objective P truth pred
  = Ok (zip_with (fun c xy => np.select c xy.1 xy.2) (np.less_scalar err 0)
          (zip ((fun e => -2 * P * e) <$> err) ((fun e => -2 * e) <$> err)),
        zip_with (fun c xy => np.select c xy.1 xy.2) (np.less_scalar err 0)
          (zip (replicate (length err) (2 * P)) (replicate (length err) 2))).
Proof.
  intros Hlen err. unfold overprediction_penalty_objective.
  rewrite subtract_same_length by done. simpl. unfold np.astype_float.
  rewrite where_arrays by (by rewrite less_scalar_length, length_fmap).
  simpl. rewrite where_scalars. simpl.
  by rewrite less_scalar_length.
Qed.

(** C3: on sequences of equal length the objective returns a gradient
    and a curvature sequence of that length; at a pair with
    [err = truth - prediction < 0] the gradient is [-2*P*err] and the
    curvature [2*P]; at a pair with [err >= 0], [err = 0] included, the
    gradient is [-2*err] and the curvature [2], whatever [P] is. *)
Theorem objective_gradient_curvature (P : Q) (truth pred : list Q) :
  length truth = length pred ->
  exists grad hess : list Q,
    overprediction_penalty_objective P truth pred = Ok (grad, hess)
    /\ length grad = length truth
    /\ length hess = length truth
    /\ forall (i : nat) (t p : Q),
        truth !! i = Some t -> pred !! i = Some p ->
        let err := t - p in
        (err < 0 -> grad !! i = Some (-2 * P * err) /\ hess !! i = Some (2 * P))
        /\ (0 <= err -> grad !! i = Some (-2 * err) /\ hess !! i = Some 2).
Proof.
  intros Hlen. eexists _, _. split; [by apply objective_same_length|].
  set (errs := zip_with Qminus truth pred).
  assert (Herrs : length errs = length truth).
  { unfold errs. rewrite length_zip_with. lia. }
  split; [|split].
  - rewrite length_zip_with, less_scalar_length, length_zip_with, !length_fmap. lia.
  - rewrite length_zip_with, less_scalar_length, length_zip_with, !length_replicate.
    lia.
  - intros i t p Ht Hp err.
    assert (He : errs !! i = Some err).
    { unfold errs. by rewrite lookup_zip_with, Ht, Hp. }
    assert (Hi : (i < length errs)%nat) by (by apply lookup_lt_Some in He).
    pose proof (less_scalar_lookup errs 0 i err He) as Hc.
    rewrite (where_lookup _ _ _ i _ (-2 * P * err) (-2 * err) Hc),
            (where_lookup _ _ _ i _ (2 * P) 2 Hc).
    + split; intros Herr.
      * apply lt0_true in Herr. by rewrite Herr.
      * apply lt0_false in Herr. by rewrite Herr.
    + by apply lookup_replicate_2.
    + by apply lookup_replicate_2.
    + by rewrite list_lookup_fmap, He.
    + by rewrite list_lookup_fmap, He.
Qed.

Lemma objective_gradient_curvature_witness :
  overprediction_penalty_objective 3 [10; 10; 10] [8; 12; 10]
  = Ok ([-2 * (10 - 8); -2 * 3 * (10 - 12); -2 * (10 - 10)], [2; 2 * 3; 2]).
Proof.
  destruct (objective_gradient_curvature 3 [10; 10; 10] [8; 12; 10] eq_refl)
    as (grad & hess & Hrun & Hg & Hh & Hat).
  rewrite Hrun.
  destruct grad as [|g0 [|g1 [|g2 [|]]]]; try discriminate Hg.
  destruct hess as [|h0 [|h1 [|h2 [|]]]]; try discriminate Hh.
  destruct (Hat 0%nat 10 8 eq_refl eq_refl) as [_ H0].
  destruct (Hat 1%nat 10 12 eq_refl eq_refl) as [H1 _].
  destruct (Hat 2%nat 10 10 eq_refl eq_refl) as [_ H2].
  destruct H0 as [[= ->] [= ->]]; [done|].
  destruct H1 as [[= ->] [= ->]]; [done|].
  destruct H2 as [[= ->] [= ->]]; [done|].
  reflexivity.
Defined.

(** ** The evaluation functions *)

Lemma where_of_errors (f g : Q -> Q) (errs : list Q) :
  zip_with (fun c xy => np.select c xy.1 xy.2) (np.less_scalar errs 0)
    (zip (f <$> errs) (g <$> errs))
  = (fun e => if Qlt_le_dec e 0 then f e else g e) <$> errs.
Proof.
  induction errs as [|e errs IH]; [done|].
  cbn [fmap list_fmap np.less_scalar zip_with]. f_equal; [|exact IH].
  simpl. by sign_case e He.
Qed.

Lemma errors_of_pairs (truth pred : list Q) :
  zip_with Qminus truth pred = (fun tp => tp.1 - tp.2) <$> zip truth pred.
Proof.
  revert pred. induction truth as [|t truth IH]; intros [|p pred]; try done.
  cbn [zip_with fmap list_fmap]. f_equal. apply IH.
Qed.

Lemma mean_nonempty (l : list Q) :
  l <> [] -> np.mean l = np.Finite (np.sum l / inject_Z (Z.of_nat (length l))).
Proof. by destruct l. Qed.

Lemma sum_total (l : list Q) : np.sum l == Spec.total l.
Proof.
  induction l as [|x l IH]; simpl; [reflexivity|].
  unfold np.sum in IH. by rewrite IH.
Qed.

Lemma mean_arithmetic_mean (l : list Q) :
  l <> [] ->
  exists v : Q, np.mean l = np.Finite v /\ v == Spec.arithmetic_mean l.
Proof.
  intros Hl. eexists. split; [by apply mean_nonempty|].
  unfold Spec.arithmetic_mean. by rewrite sum_total.
Qed.

Lemma squared_same_length (P : Q) (truth pred : list Q) :
  length truth = length pred ->
  overprediction_penalty_squared P truth pred
  = Ok ("overprediction_squared_penalty"%string,
        np.mean (Spec.squared_loss P <$> zip truth pred), false).
Proof.
  intros Hlen. unfold overprediction_penalty_squared.
  rewrite subtract_same_length by done. simpl. unfold np.astype_float.
  rewrite where_arrays by (by rewrite less_scalar_length, length_fmap).
  simpl. rewrite where_of_errors, errors_of_pairs, <- list_fmap_compose.
  done.
Qed.

Lemma absolute_same_length (P : Q) (truth pred : list Q) :
  length truth = length pred ->
  overprediction_penalty_absolute P truth pred
  = Ok ("overprediction_squared_penalty"%string,
        np.mean (Spec.absolute_loss P <$> zip truth pred), false).
Proof.
  intros Hlen. unfold overprediction_penalty_absolute.
  rewrite subtract_same_length by done. simpl. unfold np.astype_float.
  rewrite where_arrays by (by rewrite less_scalar_length, length_fmap).
  simpl. rewrite where_of_errors, errors_of_pairs, <- list_fmap_compose.
  done.
Qed.

Lemma where_custom (truth pred : list Q) :
  length truth = length pred ->
  zip_with (fun c xy => np.select c xy.1 xy.2)
    (np.less_scalar (zip_with Qminus truth pred) 0)
    (zip (Qopp <$> pred) (replicate (length (zip_with Qminus truth pred)) 0))
  = Spec.winnings_loss <$> zip truth pred.
Proof.
  revert pred. induction truth as [|t truth IH]; intros [|p pred] Hlen;
    try done.
  injection Hlen as Hlen.
  cbn [zip_with fmap list_fmap np.less_scalar length replicate].
  f_equal; [|by apply IH].
  unfold Spec.winnings_loss. simpl. by sign_case (t - p) He.
Qed.

Lemma custom_same_length (P : Q) (truth pred : list Q) :
  length truth = length pred ->
  overprediction_penalty_custom P truth pred
  = Ok ("custom_penalty"%string,
        np.mean (Spec.winnings_loss <$> zip truth pred), false).
Proof.
  intros Hlen. unfold overprediction_penalty_custom.
  rewrite subtract_same_length by done. simpl. unfold np.astype_float.
  rewrite where_array_scalar.
  - simpl. rewrite less_scalar_length. by rewrite where_custom.
  - rewrite less_scalar_length, length_fmap, length_zip_with. lia.
Qed.

Lemma zip_nonempty (truth pred : list Q) (f : Q * Q -> Q) :
  length truth = length pred -> truth <> [] -> f <$> zip truth pred <> [].
Proof. by destruct truth, pred. Qed.

(** C4: on non-empty sequences of equal length the Asymmetric-Squared
    Eval and the Asymmetric-Absolute Eval each return a metric name, the
    arithmetic mean over all pairs of the per-pair loss (err^2 * P,
    respectively abs(err) * P, when err < 0; err^2, respectively
    abs(err), when err >= 0) and the flag [False]. *)
Theorem squared_absolute_mean_loss (P : Q) (truth pred : list Q) :
  length truth = length pred -> truth <> [] ->
  exists (name_s name_a : string) (v w : Q),
    overprediction_penalty_squared P truth pred
    = Ok (name_s, np.Finite v, false)
    /\ v == Spec.arithmetic_mean (Spec.squared_loss P <$> zip truth pred)
    /\ overprediction_penalty_absolute P truth pred
       = Ok (name_a, np.Finite w, false)
    /\ w == Spec.arithmetic_mean (Spec.absolute_loss P <$> zip truth pred).
Proof.
  intros Hlen Hne.
  destruct (mean_arithmetic_mean (Spec.squared_loss P <$> zip truth pred))
    as (v & Hv & Hvm); [by apply zip_nonempty|].
  destruct (mean_arithmetic_mean (Spec.absolute_loss P <$> zip truth pred))
    as (w & Hw & Hwm); [by apply zip_nonempty|].
  exists "overprediction_squared_penalty"%string,
         "overprediction_squared_penalty"%string, v, w.
  rewrite squared_same_length, absolute_same_length, Hv, Hw by done.
  done.
Qed.

Lemma squared_absolute_mean_loss_witness :
  exists (name_s name_a : string) (v w : Q),
    overprediction_penalty_squared 3 [10; 10; 10] [8; 12; 10]
    = Ok (name_s, np.Finite v, false)
    /\ v == 16 # 3
    /\ overprediction_penalty_absolute 3 [10; 10; 10] [8; 12; 10]
       = Ok (name_a, np.Finite w, false)
    /\ w == 8 # 3.
Proof.
  destruct (squared_absolute_mean_loss 3 [10; 10; 10] [8; 12; 10])
    as (ns & na & v & w & Hs & Hv & Ha & Hw); [reflexivity|discriminate|].
  exists ns, na, v, w. repeat split; [exact Hs| |exact Ha|].
  - rewrite Hv. reflexivity.
  - rewrite Hw. reflexivity.
Defined.

(** C7: on non-empty sequences of equal length the Winnings-Approximation
    Eval returns the arithmetic mean of the per-pair losses, -prediction
    when err < 0 and 0 when err >= 0, with the flag [False]; on
    truths = [10], predictions = [12] the value is -12 and on
    predictions = [8] it is 0. *)
Theorem custom_mean_loss (P : Q) (truth pred : list Q) :
  (length truth = length pred -> truth <> [] ->
   exists (name : string) (v : Q),
     overprediction_penalty_custom P truth pred = Ok (name, np.Finite v, false)
     /\ v == Spec.arithmetic_mean (Spec.winnings_loss <$> zip truth pred))
  /\ (exists (name : string) (v : Q),
        overprediction_penalty_custom P [10] [12] = Ok (name, np.Finite v, false)
        /\ v == -12)
  /\ (exists (name : string) (v : Q),
        overprediction_penalty_custom P [10] [8] = Ok (name, np.Finite v, false)
        /\ v == 0).
Proof.
  split; [|split].
  - intros Hlen Hne.
    destruct (mean_arithmetic_mean (Spec.winnings_loss <$> zip truth pred))
      as (v & Hv & Hvm); [by apply zip_nonempty|].
    exists "custom_penalty"%string, v.
    by rewrite custom_same_length, Hv.
  - eexists _, _. split; reflexivity.
  - eexists _, _. split; reflexivity.
Qed.

Lemma custom_mean_loss_witness :
  exists (name : string) (v : Q),
    overprediction_penalty_custom 3 [10; 10] [7; 11] = Ok (name, np.Finite v, false)
    /\ v == -11 # 2.
Proof.
  destruct (custom_mean_loss 3 [10; 10] [7; 11]) as [Hmean _].
  destruct Hmean as (name & v & Hrun & Hv); [reflexivity|discriminate|].
  exists name, v. split; [exact Hrun|]. rewrite Hv. reflexivity.
Defined.

(** ** When the loss functions return *)

Lemma subtract_broadcast (a b : list Q) :
  match np.broadcast_shapes (length a) (length b) with
  | Ok k => exists d, np.subtract a b = Ok d /\ length d = k
  | Raise e => np.subtract a b = Raise e
  end.
Proof.
  unfold np.subtract, np.ufunc2.
  destruct (np.broadcast_shapes (length a) (length b)) as [k|e] eqn:Hk;
    simpl; [|done].
  eexists. split; [done|]. rewrite length_zip_with.
  rewrite (broadcast_to_length_l _ _ _ a Hk eq_refl).
  rewrite (broadcast_to_length_r _ _ _ b Hk eq_refl). lia.
Qed.

Lemma squared_name (P : Q) (truth pred : list Q) :
  returned_name (overprediction_penalty_squared P truth pred)
  = (_ ← np.broadcast_shapes (length truth) (length pred);
     Ok "overprediction_squared_penalty"%string).
Proof.
  unfold overprediction_penalty_squared.
  pose proof (subtract_broadcast truth pred) as Hsub.
  destruct (np.broadcast_shapes (length truth) (length pred)) as [k|e].
  - destruct Hsub as (d & -> & _). simpl. unfold np.astype_float.
    by rewrite where_arrays by (by rewrite less_scalar_length, length_fmap).
  - by rewrite Hsub.
Qed.

Lemma absolute_name (P : Q) (truth pred : list Q) :
  returned_name (overprediction_penalty_absolute P truth pred)
  = (_ ← np.broadcast_shapes (length truth) (length pred);
     Ok "overprediction_squared_penalty"%string).
Proof.
  unfold overprediction_penalty_absolute.
  pose proof (subtract_broadcast truth pred) as Hsub.
  destruct (np.broadcast_shapes (length truth) (length pred)) as [k|e].
  - destruct Hsub as (d & -> & _). simpl. unfold np.astype_float.
    by rewrite where_arrays by (by rewrite less_scalar_length, length_fmap).
  - by rewrite Hsub.
Qed.

Lemma custom_name (P : Q) (truth pred : list Q) :
  returned_name (overprediction_penalty_custom P truth pred)
  = (_ ← np.broadcast_shapes (length truth) (length pred);
     Ok "custom_penalty"%string).
Proof.
  unfold overprediction_penalty_custom.
  pose proof (subtract_broadcast truth pred) as Hsub.
  destruct (np.broadcast_shapes (length truth) (length pred)) as [k|e] eqn:Hk.
  - destruct Hsub as (d & -> & Hd). simpl. unfold np.astype_float, np.where_.
    rewrite less_scalar_length, Hd. simpl. rewrite length_fmap.
    assert (np.broadcast_shapes k (length pred) = Ok k) as ->.
    { apply broadcast_shapes_ok in Hk as [[? ->]|[[? ->]|[-> ->]]].
      - replace (length pred) with (length truth) by done.
        apply broadcast_shapes_same.
      - apply broadcast_shapes_same.
      - apply broadcast_shapes_one_r. }
    simpl. by rewrite broadcast_shapes_one_r.
  - by rewrite Hsub.
Qed.

Lemma objective_is_ok (P : Q) (truth pred : list Q) :
  is_ok (overprediction_penalty_objective P truth pred)
  = is_ok (np.broadcast_shapes (length truth) (length pred)).
Proof.
  unfold overprediction_penalty_objective.
  pose proof (subtract_broadcast truth pred) as Hsub.
  destruct (np.broadcast_shapes (length truth) (length pred)) as [k|e].
  - destruct Hsub as (d & -> & _). simpl. unfold np.astype_float.
    rewrite where_arrays by (by rewrite less_scalar_length, length_fmap).
    simpl. by rewrite where_scalars.
  - by rewrite Hsub.
Qed.

Lemma returned_name_is_ok (r : result (string * np.float * bool)) :
  is_ok (returned_name r) = is_ok r.
Proof. by destruct r. Qed.

(** C10: the Asymmetric-Absolute Eval returns the metric name
    "overprediction_squared_penalty", the very name the Asymmetric-Squared
    Eval returns, and the Winnings-Approximation Eval the distinct name
    "custom_penalty"; each does so on every input whose shapes broadcast,
    and raises on the others. *)
Theorem absolute_shares_squared_name (P : Q) (truth pred : list Q) :
  returned_name (overprediction_penalty_absolute P truth pred)
  = (_ ← np.broadcast_shapes (length truth) (length pred);
     Ok "overprediction_squared_penalty"%string)
  /\ returned_name (overprediction_penalty_squared P truth pred)
     = returned_name (overprediction_penalty_absolute P truth pred)
  /\ returned_name (overprediction_penalty_custom P truth pred)
     = (_ ← np.broadcast_shapes (length truth) (length pred);
        Ok "custom_penalty"%string)
  /\ "custom_penalty"%string <> "overprediction_squared_penalty"%string.
Proof.
  rewrite squared_name, absolute_name, custom_name. done.
Qed.

(** ** One over-predicted pair under two penalty coefficients *)

Lemma squared_over_pair (P t p : Q) :
  t - p < 0 ->
  exists v : Q,
    overprediction_penalty_squared P [t] [p]
    = Ok ("overprediction_squared_penalty"%string, np.Finite v, false)
    /\ v == (t - p) ^ 2 * P.
Proof.
  intros Herr. rewrite squared_same_length by done.
  cbn [zip_with fmap list_fmap np.mean np.sum foldr length].
  unfold Spec.squared_loss. cbn [fst snd].
  destruct (Qlt_le_dec (t - p) 0) as [_|Hge]; [|lra].
  eexists. split; [done|]. change (inject_Z (Z.of_nat 1)) with 1. field.
Qed.

Lemma absolute_over_pair (P t p : Q) :
  t - p < 0 ->
  exists v : Q,
    overprediction_penalty_absolute P [t] [p]
    = Ok ("overprediction_squared_penalty"%string, np.Finite v, false)
    /\ v == Qabs (t - p) * P.
Proof.
  intros Herr. rewrite absolute_same_length by done.
  cbn [zip_with fmap list_fmap np.mean np.sum foldr length].
  unfold Spec.absolute_loss. cbn [fst snd].
  destruct (Qlt_le_dec (t - p) 0) as [_|Hge]; [|lra].
  eexists. split; [done|]. change (inject_Z (Z.of_nat 1)) with 1. field.
Qed.

Lemma objective_over_pair (P t p : Q) :
  t - p < 0 ->
  overprediction_penalty_objective P [t] [p]
  = Ok ([-2 * P * (t - p)], [2 * P]).
Proof.
  intros Herr. rewrite objective_same_length by done.
  cbn [zip_with fmap list_fmap np.less_scalar length replicate fst snd].
  apply lt0_true in Herr. by rewrite Herr.
Qed.

Lemma square_pos (e : Q) : e < 0 -> 0 < e ^ 2.
Proof. intros He. change (e ^ 2) with (e * e). nra. Qed.

(** C9: for a pair with [err = truth - prediction < 0] and penalty
    coefficients [0 < P1 < P2] (3 and 12 for instance), the value of the
    Asymmetric-Squared Eval on that pair, err^2 * P, the value of the
    Asymmetric-Absolute Eval, abs(err) * P, and the magnitude of the
    gradient of the Asymmetric-Squared Objective, -2 * P * err, are each
    strictly smaller under [P1] than under [P2]. *)
Theorem penalty_strictly_increases_cost (P1 P2 t p : Q) :
  t - p < 0 -> 0 < P1 -> P1 < P2 ->
  exists (v1 v2 w1 w2 g1 g2 h1 h2 : Q) (name : string),
    (overprediction_penalty_squared P1 [t] [p] = Ok (name, np.Finite v1, false)
     /\ overprediction_penalty_squared P2 [t] [p] = Ok (name, np.Finite v2, false)
     /\ v1 == (t - p) ^ 2 * P1 /\ v2 == (t - p) ^ 2 * P2 /\ v1 < v2)
    /\ (overprediction_penalty_absolute P1 [t] [p] = Ok (name, np.Finite w1, false)
        /\ overprediction_penalty_absolute P2 [t] [p] = Ok (name, np.Finite w2, false)
        /\ w1 == Qabs (t - p) * P1 /\ w2 == Qabs (t - p) * P2 /\ w1 < w2)
    /\ (overprediction_penalty_objective P1 [t] [p] = Ok ([g1], [h1])
        /\ overprediction_penalty_objective P2 [t] [p] = Ok ([g2], [h2])
        /\ g1 = -2 * P1 * (t - p) /\ g2 = -2 * P2 * (t - p)
        /\ Qabs g1 < Qabs g2).
Proof.
  intros Herr HP1 HP12.
  destruct (squared_over_pair P1 t p Herr) as (v1 & Hs1 & Hv1).
  destruct (squared_over_pair P2 t p Herr) as (v2 & Hs2 & Hv2).
  destruct (absolute_over_pair P1 t p Herr) as (w1 & Ha1 & Hw1).
  destruct (absolute_over_pair P2 t p Herr) as (w2 & Ha2 & Hw2).
  exists v1, v2, w1, w2, (-2 * P1 * (t - p)), (-2 * P2 * (t - p)),
         (2 * P1), (2 * P2), "overprediction_squared_penalty"%string.
  pose proof (square_pos (t - p) Herr) as Hsq.
  assert (Habs : Qabs (t - p) == - (t - p)) by (apply Qabs_neg; lra).
  split; [|split].
  - repeat split; try done. rewrite Hv1, Hv2. nra.
  - repeat split; try done. rewrite Hw1, Hw2, Habs. nra.
  - rewrite !objective_over_pair by done. repeat split.
    rewrite !Qabs_pos by nra. nra.
Qed.

Lemma penalty_strictly_increases_cost_witness :
  exists (v1 v2 w1 w2 g1 g2 : Q),
    (v1 == 12 /\ v2 == 48 /\ v1 < v2)
    /\ (w1 == 6 /\ w2 == 24 /\ w1 < w2)
    /\ (g1 = -2 * penalty_cell12 * (10 - 12)
        /\ g2 = -2 * penalty_cell18 * (10 - 12) /\ Qabs g1 < Qabs g2).
Proof.
  destruct (penalty_strictly_increases_cost penalty_cell12 penalty_cell18 10 12)
    as (v1 & v2 & w1 & w2 & g1 & g2 & h1 & h2 & name & Hs & Ha & Ho);
    [reflexivity|reflexivity|reflexivity|].
  destruct Hs as (_ & _ & Hv1 & Hv2 & Hv).
  destruct Ha as (_ & _ & Hw1 & Hw2 & Hw).
  destruct Ho as (_ & _ & Hg1 & Hg2 & Hg).
  exists v1, v2, w1, w2, g1, g2. repeat split; done.
Defined.

(** ** The Outcome Scorer *)

(** *** The two computed columns: values and dtype *)

Lemma loc_setitem_values (mask : list bool) (col : pd.Series) (value : list Q) :
  pd.values (pd.loc_setitem mask col value)
  = zip_with (fun (m : bool) cv => if m then cv.2 else cv.1) mask
      (zip (pd.values col) value).
Proof.
  unfold pd.loc_setitem. destruct (pd.dtype_of col); [|done].
  destruct (pd.selects_all mask); [done|].
  by destruct (forallb pd.holds_int64 (pd.take mask value)).
Qed.

Lemma winnings_column (rows : list (Q * Q)) :
  pd.values (pd.loc_setitem (pd.le rows.*2 rows.*1)
               (pd.full_int64 (length rows) 0) rows.*2)
  = row_winnings <$> rows.
Proof.
  rewrite loc_setitem_values. cbn [pd.full_int64 pd.values].
  induction rows as [|[t p] rows IH]; [done|].
  cbn [fmap list_fmap length replicate pd.le zip_with].
  f_equal. exact IH.
Qed.

Lemma winning_percent_column (rows : list (Q * Q)) :
  pd.values (pd.loc_setitem (pd.le rows.*2 rows.*1)
               (pd.full_int64 (length rows) 0) (pd.truediv rows.*2 rows.*1))
  = row_winning_percent <$> rows.
Proof.
  rewrite loc_setitem_values. cbn [pd.full_int64 pd.values].
  induction rows as [|[t p] rows IH]; [done|].
  cbn [fmap list_fmap length replicate pd.le pd.truediv zip_with].
  f_equal. exact IH.
Qed.

Lemma winning_df_columns (ts ps : list Q) :
  let df := price_is_right.winning_df (price_is_right.__init__ ts ps) in
  pd.truth df = (zip ts ps).*1
  /\ pd.pred df = (zip ts ps).*2
  /\ pd.values (pd.winnings df) = row_winnings <$> zip ts ps
  /\ pd.values (pd.winning_percent df) = row_winning_percent <$> zip ts ps.
Proof.
  unfold price_is_right.winning_df, price_is_right.__init__.
  cbn [price_is_right.truths price_is_right.preds pd.truth pd.pred
       pd.winnings pd.winning_percent].
  by rewrite winnings_column, winning_percent_column.
Qed.

Lemma holds_int64_whole (x : Q) : pd.holds_int64 x = true -> Spec.whole x.
Proof.
  unfold pd.holds_int64. rewrite !andb_true_iff. intros [[Hx _] _].
  by apply Qeq_bool_iff.
Qed.

Lemma assigned_whole (mask : list bool) (old value : list Q) :
  Forall Spec.whole old ->
  forallb pd.holds_int64 (pd.take mask value) = true ->
  Forall Spec.whole
    (zip_with (fun (m : bool) cv => if m then cv.2 else cv.1) mask
       (zip old value)).
Proof.
  intros Hold. revert mask value.
  induction Hold as [|x old Hx _ IH]; intros [|m mask] [|v value] Hv;
    cbn [zip_with]; try constructor.
  - destruct m; [|done]. unfold pd.take in Hv.
    cbn [zip_with List.filter fst fmap list_fmap forallb snd] in Hv.
    apply andb_true_iff in Hv as [Hv _]. by apply holds_int64_whole.
  - apply IH. unfold pd.take in *.
    cbn [zip_with List.filter fst] in Hv.
    destruct m; [|done]. cbn [fmap list_fmap forallb] in Hv.
    by apply andb_true_iff in Hv as [_ Hv].
Qed.

Lemma loc_setitem_whole (mask : list bool) (n : nat) (value : list Q) :
  let col := pd.loc_setitem mask (pd.full_int64 n 0) value in
  pd.dtype_of col = pd.int64 -> Forall Spec.whole (pd.values col).
Proof.
  intros col. subst col. rewrite loc_setitem_values.
  unfold pd.loc_setitem. cbn [pd.full_int64 pd.dtype_of pd.values].
  destruct (pd.selects_all mask); [done|].
  destruct (forallb pd.holds_int64 (pd.take mask value)) eqn:Hv; [|done].
  intros _. apply assigned_whole; [|done].
  apply Forall_replicate. reflexivity.
Qed.

Lemma winning_df_whole (ts ps : list Q) :
  let df := price_is_right.winning_df (price_is_right.__init__ ts ps) in
  (pd.dtype_of (pd.winnings df) = pd.int64 ->
   Forall Spec.whole (pd.values (pd.winnings df)))
  /\ (pd.dtype_of (pd.winning_percent df) = pd.int64 ->
      Forall Spec.whole (pd.values (pd.winning_percent df))).
Proof.
  unfold price_is_right.winning_df. cbn [pd.winnings pd.winning_percent].
  split; apply loc_setitem_whole.
Qed.

(** *** The sum of a column *)

Lemma floor_total (l : list Q) :
  Forall Spec.whole l ->
  inject_Z (foldr Z.add 0%Z (Qfloor <$> l)) == Spec.total l.
Proof.
  induction 1 as [|x l Hx _ IH]; cbn [fmap list_fmap foldr Spec.total];
    [reflexivity|].
  rewrite inject_Z_plus, IH. unfold Spec.whole in Hx. by rewrite Hx.
Qed.

Lemma wrap_in_range (z : Z) :
  (pd.int64_min <= z <= pd.int64_max)%Z -> pd.wrap_int64 z = z.
Proof.
  unfold pd.int64_min, pd.int64_max, pd.wrap_int64. intros Hz.
  rewrite Z.mod_small; lia.
Qed.

Lemma in_int64_inject (z : Z) :
  Spec.in_int64 (inject_Z z) -> (pd.int64_min <= z <= pd.int64_max)%Z.
Proof. unfold Spec.in_int64. rewrite <- !Zle_Qle. done. Qed.

Lemma float_sum_total (l : list Q) : foldr Qplus 0 l == Spec.total l.
Proof.
  induction l as [|x l IH]; cbn [foldr Spec.total]; [reflexivity|].
  by rewrite IH.
Qed.

(** The sum of a column is the exact sum of its values when the column
    is float64, and also when it is int64 and that exact sum is within
    the int64 range. *)
Lemma series_sum_exact (col : pd.Series) :
  (pd.dtype_of col = pd.int64 -> Forall Spec.whole (pd.values col)) ->
  pd.dtype_of col = pd.float64 \/ Spec.in_int64 (Spec.total (pd.values col)) ->
  pd.sum col == Spec.total (pd.values col).
Proof.
  intros Hwhole Hrange. unfold pd.sum.
  destruct (pd.dtype_of col) eqn:Hdt; [|apply float_sum_total].
  destruct Hrange as [|Hrange]; [done|].
  pose proof (floor_total _ (Hwhole eq_refl)) as Hfloor.
  destruct Hrange as [Hlo Hhi]. rewrite <- Hfloor in Hlo, Hhi.
  rewrite wrap_in_range; [done|]. by apply in_int64_inject.
Qed.

Lemma row_winnings_reward (tp : Q * Q) : row_winnings tp = Spec.reward tp.
Proof.
  unfold row_winnings, Spec.reward. by mask_case tp.1 tp.2 H.
Qed.

Lemma row_winning_percent_reward (tp : Q * Q) :
  row_winning_percent tp = Spec.normalized_reward tp.
Proof.
  unfold row_winning_percent, Spec.normalized_reward. by mask_case tp.1 tp.2 H.
Qed.

Lemma winnings_rows_rewards (rows : list (Q * Q)) :
  row_winnings <$> rows = Spec.reward <$> rows.
Proof. apply list_fmap_ext. intros. apply row_winnings_reward. Qed.

Lemma winning_percent_rows_rewards (rows : list (Q * Q)) :
  row_winning_percent <$> rows = Spec.normalized_reward <$> rows.
Proof. apply list_fmap_ext. intros. apply row_winning_percent_reward. Qed.

Lemma winnings_sum_exact (ts ps : list Q) :
  let df := price_is_right.winning_df (price_is_right.__init__ ts ps) in
  pd.dtype_of (pd.winnings df) = pd.float64
  \/ Spec.in_int64 (Spec.total (row_winnings <$> zip ts ps)) ->
  pd.sum (pd.winnings df) == Spec.total (row_winnings <$> zip ts ps).
Proof.
  intros df Hrange.
  destruct (winning_df_columns ts ps) as (_ & _ & Hw & _).
  destruct (winning_df_whole ts ps) as [Hwhole _]. fold df in Hw, Hwhole.
  rewrite <- Hw in *. by apply series_sum_exact.
Qed.

Lemma winning_percent_sum_exact (ts ps : list Q) :
  let df := price_is_right.winning_df (price_is_right.__init__ ts ps) in
  pd.dtype_of (pd.winning_percent df) = pd.float64
  \/ Spec.in_int64 (Spec.total (row_winning_percent <$> zip ts ps)) ->
  pd.sum (pd.winning_percent df)
  == Spec.total (row_winning_percent <$> zip ts ps).
Proof.
  intros df Hrange.
  destruct (winning_df_columns ts ps) as (_ & _ & _ & Hn).
  destruct (winning_df_whole ts ps) as [_ Hwhole]. fold df in Hn, Hwhole.
  rewrite <- Hn in *. by apply series_sum_exact.
Qed.




(** *** The over-prediction count *)

Lemma take_zero_rows (f : Q * Q -> Q) (d : pd.dtype) (rows : list (Q * Q)) :
  length (pd.take (pd.eq_scalar (pd.mkSeries d (f <$> rows)) 0) rows.*1)
  = length (List.filter (fun tp => Qeq_bool (f tp) 0) rows).
Proof.
  unfold pd.take, pd.eq_scalar. cbn [pd.values].
  induction rows as [|tp rows IH]; [done|].
  cbn [fmap list_fmap zip_with List.filter fst].
  destruct (Qeq_bool (f tp) 0); cbn [length fmap list_fmap]; by rewrite <- IH.
Qed.

Lemma overpredicted_zero_rows (ts ps : list Q) :
  price_is_right.overpredicted
    (price_is_right.calculate_winnings (price_is_right.__init__ ts ps))
  = Some (length (List.filter (fun tp => Qeq_bool (row_winnings tp) 0) (zip ts ps))).
Proof.
  unfold price_is_right.calculate_winnings. cbn [price_is_right.overpredicted].
  destruct (winning_df_columns ts ps) as (Ht & _ & Hw & _).
  unfold pd.shape0. cbn [pd.getitem_mask pd.truth]. rewrite Ht.
  destruct (pd.winnings (price_is_right.winning_df (price_is_right.__init__ ts ps)))
    as [d vals]. cbn [pd.values] in Hw. subst vals.
  by rewrite take_zero_rows.
Qed.

Lemma zero_row_cases (tp : Q * Q) :
  Qeq_bool (row_winnings tp) 0 = Spec.over_prediction tp || Qeq_bool tp.2 0.
Proof.
  unfold row_winnings, Spec.over_prediction. by mask_case tp.1 tp.2 H.
Qed.

Lemma filter_ext_length {A : Type} (f g : A -> bool) (l : list A) :
  (forall x, f x = g x) ->
  length (List.filter f l) = length (List.filter g l).
Proof.
  intros Hfg. induction l as [|x l IH]; [done|].
  simpl. rewrite Hfg. destruct (g x); simpl; by rewrite IH.
Qed.

(** C2, what the code does: [overpredicted] is the number of rows whose
    winnings are zero, that is the pairs with prediction > truth and also
    the pairs whose prediction is 0 without exceeding the truth.  On
    truths = [10], predictions = [0] it reports 1 although no prediction
    is above its truth.  The scenario truths = [10, 10],
    predictions = [7, 11] gives count 1, winnings 7 and normalized
    winnings 0.7. *)
Theorem overpredicted_counts_zero_winnings :
  (forall ts ps : list Q,
     price_is_right.overpredicted
       (price_is_right.calculate_winnings (price_is_right.__init__ ts ps))
     = Some (length (List.filter
                       (fun tp => Spec.over_prediction tp || Qeq_bool tp.2 0)
                       (zip ts ps))))
  /\ (price_is_right.overpredicted
        (price_is_right.calculate_winnings (price_is_right.__init__ [10] [0]))
      = Some 1%nat
      /\ Spec.over_predictions [10] [0] = 0%nat)
  /\ (let self :=
        price_is_right.calculate_winnings (price_is_right.__init__ [10; 10] [7; 11]) in
      price_is_right.overpredicted self = Some 1%nat
      /\ Spec.over_predictions [10; 10] [7; 11] = 1%nat
      /\ exists w n : Q,
          price_is_right.winnings self = Some w /\ w == 7
          /\ price_is_right.winning_percent self = Some n /\ n == 7 # 10).
Proof.
  split; [|split].
  - intros ts ps. rewrite overpredicted_zero_rows. f_equal.
    apply filter_ext_length, zero_row_cases.
  - split; reflexivity.
  - repeat split. eexists _, _. repeat split; reflexivity.
Qed.

(** Away from predictions equal to zero the count is the number of
    over-predictions. *)
Lemma overpredicted_without_zero_predictions (ts ps : list Q) :
  Forall (fun p => ~ p == 0) ps ->
  price_is_right.overpredicted
    (price_is_right.calculate_winnings (price_is_right.__init__ ts ps))
  = Some (Spec.over_predictions ts ps).
Proof.
  intros Hps. rewrite overpredicted_zero_rows. f_equal.
  unfold Spec.over_predictions.
  revert ps Hps. induction ts as [|t ts IH]; intros [|p ps] Hps; try done.
  apply Forall_cons in Hps as [Hp Hps].
  cbn [zip_with List.filter]. rewrite zero_row_cases. cbn [snd].
  assert (Qeq_bool p 0 = false) as ->.
  { apply not_true_iff_false. by rewrite Qeq_bool_iff. }
  rewrite orb_false_r.
  destruct (Spec.over_prediction (t, p)); cbn [length]; by rewrite IH.
Qed.

(** *** Sequences of different lengths *)

Lemma loss_functions_raise (P : Q) (truth pred : list Q) :
  np.subtract truth pred = Raise ValueError ->
  overprediction_penalty_objective P truth pred = Raise ValueError
  /\ overprediction_penalty_squared P truth pred = Raise ValueError
  /\ overprediction_penalty_absolute P truth pred = Raise ValueError
  /\ overprediction_penalty_custom P truth pred = Raise ValueError.
Proof.
  intros Hsub.
  unfold overprediction_penalty_objective, overprediction_penalty_squared,
    overprediction_penalty_absolute, overprediction_penalty_custom.
  by rewrite Hsub.
Qed.

Lemma winning_df_truncates (ts ps : list Q) :
  let n := (length ts `min` length ps)%nat in
  price_is_right.winning_df (price_is_right.__init__ ts ps)
  = price_is_right.winning_df (price_is_right.__init__ (take n ts) (take n ps)).
Proof.
  intros n. unfold price_is_right.winning_df, price_is_right.__init__.
  cbn [price_is_right.truths price_is_right.preds].
  by rewrite (zip_with_take_both' pair n n ts ps).
Qed.

(** C5, counterexample: with truths = [10, 10] and predictions = [7]
    the Outcome Scorer returns a report (winnings 7, no over-prediction),
    and with truths = [10] and predictions = [7, 11] the
    Asymmetric-Squared Eval returns a value; neither aborts. *)
Lemma length_mismatch_not_rejected :
  length [10; 10] <> length [7]
  /\ price_is_right.calculate_winnings (price_is_right.__init__ [10; 10] [7])
     = price_is_right.mk [10; 10] [7] (Some 7) (Some (7 / 10)) (Some 0%nat)
  /\ length [10] <> length [7; 11]
  /\ exists v : Q,
      overprediction_penalty_squared 3 [10] [7; 11]
      = Ok ("overprediction_squared_penalty"%string, np.Finite v, false)
      /\ v == 6.
Proof. repeat split; try done. eexists. split; reflexivity. Qed.

(** C5, amended: when the two sequences have different lengths and
    neither has length 1, the four loss functions raise a shape error and
    return nothing; when one of them has length 1 it is broadcast against
    the other and the functions return.  The Outcome Scorer never fails on
    sequences of different lengths: it reports on the pairs up to the
    shorter length, as if both sequences were cut there. *)
Theorem length_mismatch_behaviour (P : Q) (truth pred : list Q) :
  length truth <> length pred ->
  (length truth <> 1%nat -> length pred <> 1%nat ->
   overprediction_penalty_objective P truth pred = Raise ValueError
   /\ overprediction_penalty_squared P truth pred = Raise ValueError
   /\ overprediction_penalty_absolute P truth pred = Raise ValueError
   /\ overprediction_penalty_custom P truth pred = Raise ValueError)
  /\ (length truth = 1%nat \/ length pred = 1%nat ->
      is_ok (overprediction_penalty_objective P truth pred) = true
      /\ is_ok (overprediction_penalty_squared P truth pred) = true
      /\ is_ok (overprediction_penalty_absolute P truth pred) = true
      /\ is_ok (overprediction_penalty_custom P truth pred) = true)
  /\ (let n := (length truth `min` length pred)%nat in
      let self := price_is_right.calculate_winnings
                    (price_is_right.__init__ truth pred) in
      let cut := price_is_right.calculate_winnings
                   (price_is_right.__init__ (take n truth) (take n pred)) in
      price_is_right.winnings self = price_is_right.winnings cut
      /\ price_is_right.winning_percent self = price_is_right.winning_percent cut
      /\ price_is_right.overpredicted self = price_is_right.overpredicted cut
      /\ exists (w q : Q) (k : nat),
          price_is_right.winnings self = Some w
          /\ price_is_right.winning_percent self = Some q
          /\ price_is_right.overpredicted self = Some k).
Proof.
  intros Hlen. split; [|split].
  - intros Ht Hp. by apply loss_functions_raise, subtract_raise.
  - intros Hone.
    assert (Hok : is_ok (np.broadcast_shapes (length truth) (length pred)) = true).
    { destruct Hone as [-> | ->].
      - by rewrite broadcast_shapes_one_l.
      - by rewrite broadcast_shapes_one_r. }
    rewrite objective_is_ok.
    rewrite <- (returned_name_is_ok (overprediction_penalty_squared _ _ _)),
            <- (returned_name_is_ok (overprediction_penalty_absolute _ _ _)),
            <- (returned_name_is_ok (overprediction_penalty_custom _ _ _)).
    rewrite squared_name, absolute_name, custom_name.
    by destruct (np.broadcast_shapes (length truth) (length pred)).
  - intros n self cut. subst n self cut. unfold price_is_right.calculate_winnings.
    cbn [price_is_right.winnings price_is_right.winning_percent
         price_is_right.overpredicted].
    rewrite <- (winning_df_truncates truth pred).
    repeat split. by eexists _, _, _.
Qed.

Lemma length_mismatch_behaviour_witness :
  overprediction_penalty_objective 3 [10; 10; 10] [7; 11] = Raise ValueError
  /\ is_ok (overprediction_penalty_custom 3 [10; 10; 10] [7]) = true
  /\ price_is_right.winnings
       (price_is_right.calculate_winnings (price_is_right.__init__ [10; 10] [7]))
     = price_is_right.winnings
         (price_is_right.calculate_winnings (price_is_right.__init__ [10] [7])).
Proof.
  split; [|split].
  - destruct (length_mismatch_behaviour 3 [10; 10; 10] [7; 11]) as (Hraise & _);
      [discriminate|].
    apply Hraise; discriminate.
  - destruct (length_mismatch_behaviour 3 [10; 10; 10] [7]) as (_ & Hone & _);
      [discriminate|].
    apply Hone. by right.
  - destruct (length_mismatch_behaviour 3 [10; 10] [7]) as (_ & _ & Hcut);
      [discriminate|].
    apply Hcut.
Defined.

(** *** Sign and monotonicity of the total winnings *)

Lemma row_winnings_nonneg (tp : Q * Q) : 0 <= tp.2 -> 0 <= row_winnings tp.
Proof. intros Hp. unfold row_winnings. destruct (Qle_bool tp.2 tp.1); lra. Qed.

Lemma total_rows_nonneg (l : list Q) :
  Forall (fun x => 0 <= x) l -> 0 <= Spec.total l.
Proof. induction 1 as [|x l Hx _ IH]; cbn [Spec.total]; lra. Qed.

Lemma in_int64_nonneg (x : Q) :
  0 <= x -> x <= inject_Z pd.int64_max -> Spec.in_int64 x.
Proof.
  intros H0 Hmax. split; [|done].
  apply Qle_trans with (inject_Z 0); [|done]. by rewrite <- Zle_Qle.
Qed.

(** C6, counterexample: with truth 10 and prediction -5 the pair
    contributes -5 and the total winnings are -5, below zero.  With the
    truths [2^62, 2^62, 1] and the non-negative predictions
    [2^62, 2^62, 5] the winnings column stays int64 and its sum wraps
    around: the total winnings are -2^63. *)
Lemma negative_prediction_negative_winnings :
  pd.values
    (pd.winnings (price_is_right.winning_df (price_is_right.__init__ [10] [-5])))
  = [-5]
  /\ price_is_right.winnings
       (price_is_right.calculate_winnings (price_is_right.__init__ [10] [-5]))
     = Some (-5)
  /\ -5 < 0
  /\ Forall (fun p => 0 <= p) [inject_Z (2 ^ 62); inject_Z (2 ^ 62); 5]
  /\ price_is_right.winnings
       (price_is_right.calculate_winnings
          (price_is_right.__init__
             [inject_Z (2 ^ 62); inject_Z (2 ^ 62); 1]
             [inject_Z (2 ^ 62); inject_Z (2 ^ 62); 5]))
     = Some (inject_Z (- 2 ^ 63))
  /\ inject_Z (- 2 ^ 63) < 0.
Proof.
  split; [reflexivity|]. split; [reflexivity|]. split; [reflexivity|].
  split; [repeat constructor; discriminate|].
  split; [vm_compute; reflexivity|reflexivity].
Qed.

(** C6, amended: when every prediction is non-negative, every row of the
    winnings column is >= 0; the total winnings are >= 0 as well provided
    the sum of these rows is at most 2^63 - 1, the largest int64 (beyond
    it the sum of a column that stayed int64 wraps around). *)
Theorem winnings_nonnegative (ts ps : list Q) :
  Forall (fun p => 0 <= p) ps ->
  Forall (fun w => 0 <= w)
    (pd.values
       (pd.winnings (price_is_right.winning_df (price_is_right.__init__ ts ps))))
  /\ exists W : Q,
      price_is_right.winnings
        (price_is_right.calculate_winnings (price_is_right.__init__ ts ps))
      = Some W
      /\ (Spec.total (Spec.reward <$> zip ts ps) <= inject_Z pd.int64_max ->
          0 <= W).
Proof.
  intros Hps.
  destruct (winning_df_columns ts ps) as (_ & _ & Hwc & _).
  assert (Hrows : Forall (fun w => 0 <= w) (row_winnings <$> zip ts ps)).
  { apply Forall_fmap, Forall_forall. intros [t p] Hin.
    apply row_winnings_nonneg. cbn [snd].
    apply list_elem_of_lookup in Hin as [i Hi].
    apply lookup_zip_with_Some in Hi as (t' & p' & [= <- <-] & _ & Hp).
    rewrite Forall_lookup in Hps. by apply (Hps i). }
  split; [by rewrite Hwc|].
  eexists. split; [reflexivity|].
  rewrite <- winnings_rows_rewards. intros Hmax.
  pose proof (total_rows_nonneg _ Hrows) as Hpos.
  rewrite winnings_sum_exact; [done|].
  right. by apply in_int64_nonneg.
Qed.

Lemma winnings_nonnegative_witness :
  exists W : Q,
    price_is_right.winnings
      (price_is_right.calculate_winnings (price_is_right.__init__ [10; 10] [7; 11]))
    = Some W
    /\ 0 <= W.
Proof.
  destruct (winnings_nonnegative [10; 10] [7; 11]) as (_ & W & HW & Hpos);
    [repeat constructor; discriminate|].
  exists W. split; [exact HW|]. apply Hpos. discriminate.
Defined.





(** * Further properties of the code *)

(** ** The objective beyond the claims *)

Lemma select_replicate_lookup (cond : list bool) (a b h : Q) (n i : nat) :
  zip_with (fun c xy => np.select c xy.1 xy.2) cond
    (zip (replicate n a) (replicate n b)) !! i = Some h ->
  h = a \/ h = b.
Proof.
  rewrite !lookup_zip_with. intros Hh.
  destruct (cond !! i) as [c|]; [|done]. simpl in Hh.
  destruct (replicate n a !! i) as [x|] eqn:Hx; [|done].
  destruct (replicate n b !! i) as [y|] eqn:Hy; [|done].
  apply lookup_replicate in Hx as [-> _]. apply lookup_replicate in Hy as [-> _].
  injection Hh as <-. destruct c; auto.
Qed.

Lemma objective_curvature_shape (P : Q) (truth pred : list Q) (k : nat) :
  np.broadcast_shapes (length truth) (length pred) = Ok k ->
  exists grad hess : list Q,
    overprediction_penalty_objective P truth pred = Ok (grad, hess)
    /\ length grad = k /\ length hess = k.
Proof.
  intros Hk. unfold overprediction_penalty_objective.
  pose proof (subtract_broadcast truth pred) as Hsub. rewrite Hk in Hsub.
  destruct Hsub as (d & -> & Hd). simpl. unfold np.astype_float.
  rewrite where_arrays by (by rewrite less_scalar_length, length_fmap).
  simpl. rewrite where_scalars. simpl. eexists _, _. split; [done|].
  split.
  - rewrite length_zip_with, less_scalar_length, length_zip_with, !length_fmap. lia.
  - rewrite length_zip_with, less_scalar_length, length_zip_with,
      !length_replicate. lia.
Qed.

(** X1: the curvature handed to the optimizer is positive: whenever the
    shapes broadcast to a length [k] and the penalty is positive, the
    objective returns [k] gradients and [k] curvatures, each curvature
    being [2 * penalty] or [2], hence above zero. *)
Theorem objective_curvature_positive (P : Q) (truth pred : list Q) (k : nat) :
  0 < P ->
  np.broadcast_shapes (length truth) (length pred) = Ok k ->
  exists grad hess : list Q,
    overprediction_penalty_objective P truth pred = Ok (grad, hess)
    /\ length grad = k /\ length hess = k
    /\ Forall (fun h => (h = 2 * P \/ h = 2) /\ 0 < h) hess.
Proof.
  intros HP Hk. unfold overprediction_penalty_objective.
  pose proof (subtract_broadcast truth pred) as Hsub. rewrite Hk in Hsub.
  destruct Hsub as (d & -> & Hd). simpl. unfold np.astype_float.
  rewrite where_arrays by (by rewrite less_scalar_length, length_fmap).
  simpl. rewrite where_scalars. simpl. eexists _, _. split; [done|].
  split; [|split].
  - rewrite length_zip_with, less_scalar_length, length_zip_with, !length_fmap. lia.
  - rewrite length_zip_with, less_scalar_length, length_zip_with,
      !length_replicate. lia.
  - apply Forall_lookup. intros i h Hh.
    apply select_replicate_lookup in Hh as [-> | ->]; split; auto; lra.
Qed.

Lemma objective_curvature_positive_witness :
  exists grad hess : list Q,
    overprediction_penalty_objective 3 [10] [8; 12] = Ok (grad, hess)
    /\ length grad = 2%nat /\ length hess = 2%nat
    /\ Forall (fun h => (h = 2 * 3 \/ h = 2) /\ 0 < h) hess.
Proof.
  apply (objective_curvature_positive 3 [10] [8; 12] 2); reflexivity.
Defined.

Lemma objective_lookup (P : Q) (truth pred : list Q) (i : nat) (t p : Q) :
  length truth = length pred ->
  truth !! i = Some t -> pred !! i = Some p ->
  exists grad hess : list Q,
    overprediction_penalty_objective P truth pred = Ok (grad, hess)
    /\ grad !! i
       = Some (np.select (negb (Qle_bool 0 (t - p)))
                 (-2 * P * (t - p)) (-2 * (t - p)))
    /\ hess !! i = Some (np.select (negb (Qle_bool 0 (t - p))) (2 * P) 2).
Proof.
  intros Hlen Ht Hp. eexists _, _. split; [by apply objective_same_length|].
  set (errs := zip_with Qminus truth pred).
  assert (He : errs !! i = Some (t - p)).
  { unfold errs. by rewrite lookup_zip_with, Ht, Hp. }
  assert (Hi : (i < length errs)%nat) by (by apply lookup_lt_Some in He).
  pose proof (less_scalar_lookup errs 0 i _ He) as Hc.
  split.
  - apply where_lookup; [done| |]; by rewrite list_lookup_fmap, He.
  - apply where_lookup; [done| |]; by apply lookup_replicate_2.
Qed.

(** X2: the gradient pushes every prediction towards its truth: with a
    positive penalty the gradient at a pair is negative when the
    prediction is below the truth, positive when it is above and zero
    when they are equal. *)
Theorem objective_gradient_sign (P : Q) (truth pred : list Q) (i : nat) (t p : Q) :
  0 < P -> length truth = length pred ->
  truth !! i = Some t -> pred !! i = Some p ->
  exists (grad hess : list Q) (g : Q),
    overprediction_penalty_objective P truth pred = Ok (grad, hess)
    /\ grad !! i = Some g
    /\ (p < t -> g < 0) /\ (t < p -> 0 < g) /\ (p == t -> g == 0).
Proof.
  intros HP Hlen Ht Hp.
  destruct (objective_lookup P truth pred i t p Hlen Ht Hp)
    as (grad & hess & Hrun & Hg & _).
  exists grad, hess. eexists. split; [exact Hrun|]. split; [exact Hg|].
  unfold np.select.
  destruct (negb (Qle_bool 0 (t - p))) eqn:Hc;
    [apply lt0_true in Hc | apply lt0_false in Hc];
    repeat split; intros; nra.
Qed.

Lemma objective_gradient_sign_witness :
  exists (grad hess : list Q) (g : Q),
    overprediction_penalty_objective 3 [10; 10] [7; 11] = Ok (grad, hess)
    /\ grad !! 1%nat = Some g /\ 0 < g.
Proof.
  destruct (objective_gradient_sign 3 [10; 10] [7; 11] 1 10 11)
    as (grad & hess & g & Hrun & Hg & _ & Hover & _);
    [reflexivity|reflexivity|reflexivity|reflexivity|].
  exists grad, hess, g. split; [exact Hrun|]. split; [exact Hg|].
  apply Hover. reflexivity.
Defined.

(** ** The evaluation functions beyond the claims *)

Lemma squared_pair (P t p : Q) :
  exists v : Q,
    overprediction_penalty_squared P [t] [p]
    = Ok ("overprediction_squared_penalty"%string, np.Finite v, false)
    /\ v == Spec.squared_loss P (t, p).
Proof.
  rewrite squared_same_length by done.
  cbn [zip_with fmap list_fmap np.mean np.sum foldr length].
  eexists. split; [done|]. change (inject_Z (Z.of_nat 1)) with 1. field.
Qed.

(** X3: the objective is the exact second-order expansion of the
    Asymmetric-Squared Eval on one pair: moving the prediction by [h]
    without changing the sign test [err < 0] changes the evaluation by
    [grad * h + hess / 2 * h^2], with the gradient and the curvature that
    the objective returns for the pair. *)
Theorem objective_expands_squared (P t p h : Q) :
  (t - p < 0 /\ t - (p + h) < 0) \/ (0 <= t - p /\ 0 <= t - (p + h)) ->
  exists (g c v v' : Q) (name : string),
    overprediction_penalty_objective P [t] [p] = Ok ([g], [c])
    /\ overprediction_penalty_squared P [t] [p] = Ok (name, np.Finite v, false)
    /\ overprediction_penalty_squared P [t] [p + h]
       = Ok (name, np.Finite v', false)
    /\ v' == v + g * h + c / 2 * h ^ 2.
Proof.
  intros Hside.
  destruct (squared_pair P t p) as (v & Hv & Hvl).
  destruct (squared_pair P t (p + h)) as (v' & Hv' & Hvl').
  destruct (objective_lookup P [t] [p] 0 t p eq_refl eq_refl eq_refl)
    as (grad & hess & Hrun & Hg & Hc).
  assert (Hshape : exists g c, grad = [g] /\ hess = [c]).
  { destruct (objective_curvature_shape P [t] [p] 1 eq_refl)
      as (grad' & hess' & Hrun' & Hlg & Hlh).
    rewrite Hrun in Hrun'. injection Hrun' as <- <-.
    destruct grad as [|g [|]]; try discriminate Hlg.
    destruct hess as [|c [|]]; try discriminate Hlh. by exists g, c. }
  destruct Hshape as (g & c & -> & ->).
  injection Hg as ->. injection Hc as ->.
  eexists _, _, v, v', _. split; [exact Hrun|]. split; [exact Hv|].
  split; [exact Hv'|].
  rewrite Hvl, Hvl'. unfold Spec.squared_loss, np.select. cbn [fst snd].
  destruct Hside as [[He He'] | [He He']].
  - destruct (Qlt_le_dec (t - p) 0); [|lra].
    destruct (Qlt_le_dec (t - (p + h)) 0); [|lra].
    apply lt0_true in He. rewrite He. field.
  - destruct (Qlt_le_dec (t - p) 0); [lra|].
    destruct (Qlt_le_dec (t - (p + h)) 0); [lra|].
    apply lt0_false in He. rewrite He. field.
Qed.

Lemma objective_expands_squared_witness :
  exists (g c v v' : Q) (name : string),
    overprediction_penalty_objective 3 [10] [12] = Ok ([g], [c])
    /\ overprediction_penalty_squared 3 [10] [12] = Ok (name, np.Finite v, false)
    /\ overprediction_penalty_squared 3 [10] [12 + 1]
       = Ok (name, np.Finite v', false)
    /\ v' == v + g * 1 + c / 2 * 1 ^ 2.
Proof.
  apply (objective_expands_squared 3 10 12 1). left. split; reflexivity.
Defined.

(** *** Sums and means of per-pair losses *)

Lemma total_le (f g : Q * Q -> Q) (rows : list (Q * Q)) :
  (forall tp, f tp <= g tp) ->
  Spec.total (f <$> rows) <= Spec.total (g <$> rows).
Proof.
  intros Hfg.
  induction rows as [|tp rows IH]; cbn [fmap list_fmap Spec.total]; [lra|].
  specialize (Hfg tp). lra.
Qed.

Lemma total_zero (l : list Q) :
  Forall (fun x => 0 <= x) l ->
  (Spec.total l == 0 <-> Forall (fun x => x == 0) l).
Proof.
  induction 1 as [|x l Hx Hl IH]; cbn [Spec.total].
  - split; [constructor|reflexivity].
  - pose proof (total_rows_nonneg l Hl) as Hpos. split.
    + intros Hsum. constructor; [lra|]. apply IH. lra.
    + intros Hall. apply Forall_cons in Hall as [Hx0 Hall].
      apply IH in Hall. lra.
Qed.

Lemma length_pos_Q (n : nat) : (0 < n)%nat -> 0 < inject_Z (Z.of_nat n).
Proof.
  intros Hn. change 0 with (inject_Z 0). rewrite <- Zlt_Qlt. lia.
Qed.

Lemma mean_le (l k : list Q) :
  l <> [] -> length l = length k -> Spec.total l <= Spec.total k ->
  Spec.arithmetic_mean l <= Spec.arithmetic_mean k.
Proof.
  intros Hl Hlen Hle. unfold Spec.arithmetic_mean. rewrite <- Hlen.
  assert (Hn : 0 < inject_Z (Z.of_nat (length l))).
  { apply length_pos_Q. destruct l; [done|simpl; lia]. }
  apply Qmult_le_compat_r; [done|].
  apply Qlt_le_weak, Qinv_lt_0_compat, Hn.
Qed.

Lemma mean_zero (l : list Q) :
  l <> [] -> (Spec.arithmetic_mean l == 0 <-> Spec.total l == 0).
Proof.
  intros Hl. unfold Spec.arithmetic_mean.
  assert (Hn : 0 < inject_Z (Z.of_nat (length l))).
  { apply length_pos_Q. destruct l; [done|simpl; lia]. }
  split; intros H0.
  - apply Qmult_integral in H0 as [H0|H0]; [done|].
    apply Qinv_lt_0_compat in Hn. lra.
  - rewrite H0. field. lra.
Qed.

Lemma squared_loss_le (P1 P2 : Q) (tp : Q * Q) :
  P1 <= P2 -> Spec.squared_loss P1 tp <= Spec.squared_loss P2 tp.
Proof.
  intros HP. unfold Spec.squared_loss. cbn zeta.
  destruct (Qlt_le_dec (tp.1 - tp.2) 0) as [He|He]; [|lra].
  pose proof (square_pos _ He). nra.
Qed.

Lemma absolute_loss_le (P1 P2 : Q) (tp : Q * Q) :
  P1 <= P2 -> Spec.absolute_loss P1 tp <= Spec.absolute_loss P2 tp.
Proof.
  intros HP. unfold Spec.absolute_loss. cbn zeta.
  destruct (Qlt_le_dec (tp.1 - tp.2) 0) as [He|He]; [|lra].
  pose proof (Qabs_nonneg (tp.1 - tp.2)). nra.
Qed.

(** X4: a larger penalty never lowers an evaluation: on non-empty sequences
    of equal length the values of the Asymmetric-Squared Eval and of the
    Asymmetric-Absolute Eval under [P1] are at most their values under
    [P2] whenever [P1 <= P2]. *)
Theorem evals_monotone_in_penalty (P1 P2 : Q) (truth pred : list Q) :
  length truth = length pred -> truth <> [] -> P1 <= P2 ->
  exists (v1 v2 w1 w2 : Q) (name : string),
    overprediction_penalty_squared P1 truth pred = Ok (name, np.Finite v1, false)
    /\ overprediction_penalty_squared P2 truth pred = Ok (name, np.Finite v2, false)
    /\ v1 <= v2
    /\ overprediction_penalty_absolute P1 truth pred = Ok (name, np.Finite w1, false)
    /\ overprediction_penalty_absolute P2 truth pred = Ok (name, np.Finite w2, false)
    /\ w1 <= w2.
Proof.
  intros Hlen Hne HP.
  pose proof (fun f => zip_nonempty truth pred f Hlen Hne) as Hrows.
  destruct (mean_arithmetic_mean _ (Hrows (Spec.squared_loss P1))) as (v1 & Hv1 & Hm1).
  destruct (mean_arithmetic_mean _ (Hrows (Spec.squared_loss P2))) as (v2 & Hv2 & Hm2).
  destruct (mean_arithmetic_mean _ (Hrows (Spec.absolute_loss P1))) as (w1 & Hw1 & Hn1).
  destruct (mean_arithmetic_mean _ (Hrows (Spec.absolute_loss P2))) as (w2 & Hw2 & Hn2).
  exists v1, v2, w1, w2, "overprediction_squared_penalty"%string.
  rewrite !squared_same_length, !absolute_same_length, Hv1, Hv2, Hw1, Hw2 by done.
  repeat split.
  - rewrite Hm1, Hm2. apply mean_le; [by apply Hrows|by rewrite !length_fmap|].
    apply total_le. intros tp. by apply squared_loss_le.
  - rewrite Hn1, Hn2. apply mean_le; [by apply Hrows|by rewrite !length_fmap|].
    apply total_le. intros tp. by apply absolute_loss_le.
Qed.

Lemma evals_monotone_in_penalty_witness :
  exists (v1 v2 w1 w2 : Q) (name : string),
    overprediction_penalty_squared 3 [10; 10] [7; 11] = Ok (name, np.Finite v1, false)
    /\ overprediction_penalty_squared 5 [10; 10] [7; 11] = Ok (name, np.Finite v2, false)
    /\ v1 <= v2
    /\ overprediction_penalty_absolute 3 [10; 10] [7; 11] = Ok (name, np.Finite w1, false)
    /\ overprediction_penalty_absolute 5 [10; 10] [7; 11] = Ok (name, np.Finite w2, false)
    /\ w1 <= w2.
Proof.
  apply (evals_monotone_in_penalty 3 5 [10; 10] [7; 11]);
    [reflexivity|discriminate|discriminate].
Defined.

Lemma Forall_zip_Forall2 (R : Q * Q -> Prop) (truth pred : list Q) :
  length truth = length pred ->
  (Forall R (zip truth pred) <-> Forall2 (fun t p => R (t, p)) truth pred).
Proof.
  revert pred. induction truth as [|t truth IH]; intros [|p pred] Hlen;
    try done.
  injection Hlen as Hlen. cbn [zip_with].
  rewrite Forall_cons, Forall2_cons, (IH pred Hlen). done.
Qed.

Lemma fmap_zip_ext (f g : Q * Q -> Q) (truth pred : list Q) :
  Forall2 (fun t p => f (t, p) = g (t, p)) truth pred ->
  f <$> zip truth pred = g <$> zip truth pred.
Proof.
  induction 1 as [|t p truth pred Hfg _ IH]; [done|].
  cbn [zip_with fmap list_fmap]. by rewrite Hfg, IH.
Qed.

(** X5: without over-prediction the penalty plays no part: when no
    prediction exceeds its truth, the Asymmetric-Squared Eval is the mean
    of the squared errors, the Asymmetric-Absolute Eval the mean of the
    absolute errors, whatever the penalty, and the Winnings-Approximation
    Eval is zero. *)
Theorem evals_without_overprediction (P : Q) (truth pred : list Q) :
  Forall2 (fun t p => p <= t) truth pred -> truth <> [] ->
  exists (v w z : Q) (name : string),
    overprediction_penalty_squared P truth pred = Ok (name, np.Finite v, false)
    /\ v == Spec.arithmetic_mean ((fun tp => (tp.1 - tp.2) ^ 2) <$> zip truth pred)
    /\ overprediction_penalty_absolute P truth pred = Ok (name, np.Finite w, false)
    /\ w == Spec.arithmetic_mean ((fun tp => Qabs (tp.1 - tp.2)) <$> zip truth pred)
    /\ overprediction_penalty_custom P truth pred
       = Ok ("custom_penalty"%string, np.Finite z, false)
    /\ z == 0.
Proof.
  intros Hunder Hne.
  pose proof (Forall2_length _ _ _ Hunder) as Hlen.
  pose proof (fun f => zip_nonempty truth pred f Hlen Hne) as Hrows.
  assert (Hs : Spec.squared_loss P <$> zip truth pred
               = (fun tp => (tp.1 - tp.2) ^ 2) <$> zip truth pred).
  { apply fmap_zip_ext. eapply Forall2_impl; [exact Hunder|].
    intros t p Hpt. cbv beta in Hpt. unfold Spec.squared_loss. cbn [fst snd].
    destruct (Qlt_le_dec (t - p) 0); [exfalso; lra|done]. }
  assert (Ha : Spec.absolute_loss P <$> zip truth pred
               = (fun tp => Qabs (tp.1 - tp.2)) <$> zip truth pred).
  { apply fmap_zip_ext. eapply Forall2_impl; [exact Hunder|].
    intros t p Hpt. cbv beta in Hpt. unfold Spec.absolute_loss. cbn [fst snd].
    destruct (Qlt_le_dec (t - p) 0); [exfalso; lra|done]. }
  assert (Hc : Spec.winnings_loss <$> zip truth pred
               = (fun _ => 0) <$> zip truth pred).
  { apply fmap_zip_ext. eapply Forall2_impl; [exact Hunder|].
    intros t p Hpt. cbv beta in Hpt. unfold Spec.winnings_loss. cbn [fst snd].
    destruct (Qlt_le_dec (t - p) 0); [exfalso; lra|done]. }
  destruct (mean_arithmetic_mean _ (Hrows (fun tp => (tp.1 - tp.2) ^ 2)))
    as (v & Hv & Hvm).
  destruct (mean_arithmetic_mean _ (Hrows (fun tp => Qabs (tp.1 - tp.2))))
    as (w & Hw & Hwm).
  destruct (mean_arithmetic_mean _ (Hrows (fun _ => 0))) as (z & Hz & Hzm).
  exists v, w, z, "overprediction_squared_penalty"%string.
  rewrite squared_same_length, absolute_same_length, custom_same_length by done.
  rewrite Hs, Ha, Hc, Hv, Hw, Hz. repeat split; try done.
  rewrite Hzm. apply mean_zero; [by apply Hrows|].
  apply total_zero; apply Forall_fmap, Forall_true; intros; cbn; lra.
Qed.

Lemma evals_without_overprediction_witness :
  exists (v w z : Q) (name : string),
    overprediction_penalty_squared 12 [10; 10] [7; 10] = Ok (name, np.Finite v, false)
    /\ v == 9 # 2
    /\ overprediction_penalty_absolute 12 [10; 10] [7; 10] = Ok (name, np.Finite w, false)
    /\ w == 3 # 2
    /\ overprediction_penalty_custom 12 [10; 10] [7; 10]
       = Ok ("custom_penalty"%string, np.Finite z, false)
    /\ z == 0.
Proof.
  destruct (evals_without_overprediction 12 [10; 10] [7; 10])
    as (v & w & z & name & Hs & Hv & Ha & Hw & Hc & Hz);
    [repeat constructor; discriminate|discriminate|].
  exists v, w, z, name. repeat split; done.
Defined.

Lemma square_nonneg (e : Q) : 0 <= e ^ 2.
Proof.
  change (e ^ 2) with (e * e). destruct (Qlt_le_dec e 0); nra.
Qed.

Lemma squared_loss_nonneg (P : Q) (tp : Q * Q) :
  0 <= P -> 0 <= Spec.squared_loss P tp.
Proof.
  intros HP. unfold Spec.squared_loss. cbn zeta.
  pose proof (square_nonneg (tp.1 - tp.2)) as Hsq.
  destruct (Qlt_le_dec (tp.1 - tp.2) 0); nra.
Qed.

Lemma absolute_loss_nonneg (P : Q) (tp : Q * Q) :
  0 <= P -> 0 <= Spec.absolute_loss P tp.
Proof.
  intros HP. unfold Spec.absolute_loss. cbn zeta.
  pose proof (Qabs_nonneg (tp.1 - tp.2)).
  destruct (Qlt_le_dec (tp.1 - tp.2) 0); nra.
Qed.

Lemma squared_loss_zero (P t p : Q) :
  0 < P -> (Spec.squared_loss P (t, p) == 0 <-> t == p).
Proof.
  intros HP. unfold Spec.squared_loss. cbn [fst snd].
  change ((t - p) ^ 2) with ((t - p) * (t - p)).
  destruct (Qlt_le_dec (t - p) 0) as [He|He]; split; intros H0.
  - pose proof (square_pos _ He) as Hsq.
    change ((t - p) ^ 2) with ((t - p) * (t - p)) in Hsq. nra.
  - lra.
  - apply Qmult_integral in H0. lra.
  - assert (t - p == 0) as -> by lra. reflexivity.
Qed.

Lemma absolute_loss_zero (P t p : Q) :
  0 < P -> (Spec.absolute_loss P (t, p) == 0 <-> t == p).
Proof.
  intros HP. unfold Spec.absolute_loss. cbn [fst snd].
  destruct (Qlt_le_dec (t - p) 0) as [He|He]; split; intros H0.
  - rewrite Qabs_neg in H0 by lra. nra.
  - lra.
  - rewrite Qabs_pos in H0 by done. lra.
  - rewrite Qabs_pos by done. lra.
Qed.

Lemma mean_nonneg (l : list Q) :
  Forall (fun x => 0 <= x) l -> 0 <= Spec.arithmetic_mean l.
Proof.
  intros Hl. unfold Spec.arithmetic_mean.
  pose proof (total_rows_nonneg l Hl) as Ht.
  destruct l as [|x l]; [done|].
  apply Qle_shift_div_l; [apply length_pos_Q; simpl; lia|lra].
Qed.

Lemma mean_loss_zero (f : Q * Q -> Q) (truth pred : list Q) :
  length truth = length pred -> truth <> [] ->
  (forall tp, 0 <= f tp) ->
  (forall t p, f (t, p) == 0 <-> t == p) ->
  (Spec.arithmetic_mean (f <$> zip truth pred) == 0 <-> Forall2 Qeq truth pred).
Proof.
  intros Hlen Hne Hpos Hzero.
  rewrite mean_zero by (by apply zip_nonempty).
  rewrite total_zero by (apply Forall_fmap, Forall_true; intros; apply Hpos).
  rewrite Forall_fmap, (Forall_zip_Forall2 _ truth pred Hlen).
  split; intros Hall; (eapply Forall2_impl; [exact Hall|]);
    intros t p; cbn; apply Hzero.
Qed.

(** X6: with a positive penalty the Asymmetric-Squared Eval and the
    Asymmetric-Absolute Eval are never negative, and each is zero exactly
    when every prediction equals its truth. *)
Theorem evals_zero_at_truth_only (P : Q) (truth pred : list Q) :
  0 < P -> length truth = length pred -> truth <> [] ->
  exists (v w : Q) (name : string),
    overprediction_penalty_squared P truth pred = Ok (name, np.Finite v, false)
    /\ 0 <= v /\ (v == 0 <-> Forall2 Qeq truth pred)
    /\ overprediction_penalty_absolute P truth pred = Ok (name, np.Finite w, false)
    /\ 0 <= w /\ (w == 0 <-> Forall2 Qeq truth pred).
Proof.
  intros HP Hlen Hne.
  pose proof (fun f => zip_nonempty truth pred f Hlen Hne) as Hrows.
  destruct (mean_arithmetic_mean _ (Hrows (Spec.squared_loss P))) as (v & Hv & Hvm).
  destruct (mean_arithmetic_mean _ (Hrows (Spec.absolute_loss P))) as (w & Hw & Hwm).
  exists v, w, "overprediction_squared_penalty"%string.
  rewrite squared_same_length, absolute_same_length, Hv, Hw by done.
  assert (HP0 : 0 <= P) by lra.
  repeat split; try done.
  - rewrite Hvm. apply mean_nonneg, Forall_fmap, Forall_true.
    intros tp. by apply squared_loss_nonneg.
  - rewrite Hvm. apply mean_loss_zero; try done.
    + intros tp. by apply squared_loss_nonneg.
    + intros t p. by apply squared_loss_zero.
  - rewrite Hvm. apply mean_loss_zero; try done.
    + intros tp. by apply squared_loss_nonneg.
    + intros t p. by apply squared_loss_zero.
  - rewrite Hwm. apply mean_nonneg, Forall_fmap, Forall_true.
    intros tp. by apply absolute_loss_nonneg.
  - rewrite Hwm. apply mean_loss_zero; try done.
    + intros tp. by apply absolute_loss_nonneg.
    + intros t p. by apply absolute_loss_zero.
  - rewrite Hwm. apply mean_loss_zero; try done.
    + intros tp. by apply absolute_loss_nonneg.
    + intros t p. by apply absolute_loss_zero.
Qed.

Lemma evals_zero_at_truth_only_witness :
  exists (v w : Q) (name : string),
    overprediction_penalty_squared 3 [10; 10] [10; 10] = Ok (name, np.Finite v, false)
    /\ v == 0
    /\ overprediction_penalty_absolute 3 [10; 10] [10; 10] = Ok (name, np.Finite w, false)
    /\ w == 0.
Proof.
  destruct (evals_zero_at_truth_only 3 [10; 10] [10; 10])
    as (v & w & name & Hs & _ & Hv & Ha & _ & Hw);
    [reflexivity|reflexivity|discriminate|].
  exists v, w, name. split; [exact Hs|]. split.
  { apply Hv. repeat constructor. }
  split; [exact Ha|]. apply Hw. repeat constructor.
Defined.

(** *** Empty and broadcast inputs *)

Lemma broadcast_empty (n m k : nat) :
  np.broadcast_shapes n m = Ok k -> (k = 0%nat <-> n = 0%nat \/ m = 0%nat).
Proof. intros Hk. apply broadcast_shapes_ok in Hk. lia. Qed.

Lemma squared_loss_array (P : Q) (truth pred : list Q) (k : nat) :
  np.broadcast_shapes (length truth) (length pred) = Ok k ->
  exists loss : list Q,
    overprediction_penalty_squared P truth pred
    = Ok ("overprediction_squared_penalty"%string, np.mean loss, false)
    /\ length loss = k.
Proof.
  intros Hk. unfold overprediction_penalty_squared.
  pose proof (subtract_broadcast truth pred) as Hsub. rewrite Hk in Hsub.
  destruct Hsub as (d & -> & Hd). simpl. unfold np.astype_float.
  rewrite where_arrays by (by rewrite less_scalar_length, length_fmap).
  simpl. eexists. split; [done|].
  rewrite length_zip_with, less_scalar_length, length_zip_with, !length_fmap. lia.
Qed.

Lemma absolute_loss_array (P : Q) (truth pred : list Q) (k : nat) :
  np.broadcast_shapes (length truth) (length pred) = Ok k ->
  exists loss : list Q,
    overprediction_penalty_absolute P truth pred
    = Ok ("overprediction_squared_penalty"%string, np.mean loss, false)
    /\ length loss = k.
Proof.
  intros Hk. unfold overprediction_penalty_absolute.
  pose proof (subtract_broadcast truth pred) as Hsub. rewrite Hk in Hsub.
  destruct Hsub as (d & -> & Hd). simpl. unfold np.astype_float.
  rewrite where_arrays by (by rewrite less_scalar_length, length_fmap).
  simpl. eexists. split; [done|].
  rewrite length_zip_with, less_scalar_length, length_zip_with, !length_fmap. lia.
Qed.

Lemma custom_loss_array (P : Q) (truth pred : list Q) (k : nat) :
  np.broadcast_shapes (length truth) (length pred) = Ok k ->
  exists loss : list Q,
    overprediction_penalty_custom P truth pred
    = Ok ("custom_penalty"%string, np.mean loss, false)
    /\ length loss = k.
Proof.
  intros Hk. unfold overprediction_penalty_custom.
  pose proof (subtract_broadcast truth pred) as Hsub. rewrite Hk in Hsub.
  destruct Hsub as (d & -> & Hd). simpl. unfold np.astype_float, np.where_.
  rewrite less_scalar_length, Hd. simpl. rewrite length_fmap.
  assert (Hkp : np.broadcast_shapes k (length pred) = Ok k).
  { pose proof Hk as Hk'.
    apply broadcast_shapes_ok in Hk' as [[? ->]|[[? ->]|[-> ->]]].
    - replace (length pred) with (length truth) by done.
      apply broadcast_shapes_same.
    - apply broadcast_shapes_same.
    - apply broadcast_shapes_one_r. }
  rewrite Hkp. simpl. rewrite broadcast_shapes_one_r. simpl.
  eexists. split; [done|].
  rewrite length_zip_with, length_zip_with, length_replicate.
  rewrite (broadcast_to_length_l k 1 k) by
    (by rewrite ?broadcast_shapes_one_r, ?less_scalar_length).
  rewrite (broadcast_to_length_r k (length pred) k) by
    (by rewrite ?length_fmap).
  lia.
Qed.

(** X7: an empty input gives nan, not an exception: when the truths or
    the predictions are empty and the shapes broadcast (the other
    sequence is empty too or has length 1), each of the three evaluation
    functions returns its metric name, nan and the flag [False]. *)
Theorem evals_nan_on_empty (P : Q) (truth pred : list Q) (k : nat) :
  truth = [] \/ pred = [] ->
  np.broadcast_shapes (length truth) (length pred) = Ok k ->
  overprediction_penalty_squared P truth pred
  = Ok ("overprediction_squared_penalty"%string, np.NaN, false)
  /\ overprediction_penalty_absolute P truth pred
     = Ok ("overprediction_squared_penalty"%string, np.NaN, false)
  /\ overprediction_penalty_custom P truth pred
     = Ok ("custom_penalty"%string, np.NaN, false).
Proof.
  intros Hempty Hk.
  destruct (squared_loss_array P truth pred k Hk) as (ls & -> & Hls).
  destruct (absolute_loss_array P truth pred k Hk) as (la & -> & Hla).
  destruct (custom_loss_array P truth pred k Hk) as (lc & -> & Hlc).
  assert (Hk0 : k = 0%nat).
  { apply (broadcast_empty _ _ _ Hk).
    rewrite <- !length_zero_iff_nil in Hempty. done. }
  rewrite Hk0 in Hls, Hla, Hlc.
  apply length_zero_iff_nil in Hls, Hla, Hlc. by rewrite Hls, Hla, Hlc.
Qed.

Lemma evals_nan_on_empty_witness :
  overprediction_penalty_squared 3 [] [7]
  = Ok ("overprediction_squared_penalty"%string, np.NaN, false)
  /\ overprediction_penalty_absolute 3 [] [7]
     = Ok ("overprediction_squared_penalty"%string, np.NaN, false)
  /\ overprediction_penalty_custom 3 [] [7]
     = Ok ("custom_penalty"%string, np.NaN, false).
Proof.
  apply (evals_nan_on_empty 3 [] [7] 0); [by left|reflexivity].
Defined.

Lemma broadcast_to_id {A : Type} (n : nat) (a : list A) :
  length a = n -> np.broadcast_to n a = a.
Proof. intros <-. apply broadcast_to_same. Qed.

Lemma subtract_single_truth (t : Q) (pred : list Q) :
  np.subtract [t] pred = np.subtract (replicate (length pred) t) pred.
Proof.
  unfold np.subtract, np.ufunc2. cbn [length].
  rewrite length_replicate, broadcast_shapes_one_l, broadcast_shapes_same.
  simpl. by rewrite (broadcast_to_id _ (replicate _ _)) by apply length_replicate.
Qed.

Lemma subtract_single_pred (truth : list Q) (p : Q) :
  np.subtract truth [p] = np.subtract truth (replicate (length truth) p).
Proof.
  unfold np.subtract, np.ufunc2. cbn [length].
  rewrite length_replicate, broadcast_shapes_one_r, broadcast_shapes_same.
  simpl. by rewrite (broadcast_to_id _ (replicate _ _)) by apply length_replicate.
Qed.

Lemma where_single_array (cond : list bool) (x y : Q) :
  np.where_ cond (np.Array [x]) (np.Scalar y)
  = np.where_ cond (np.Array (replicate (length cond) x)) (np.Scalar y).
Proof.
  unfold np.where_. cbn [np.operand_shape length].
  rewrite length_replicate, broadcast_shapes_one_r, broadcast_shapes_same.
  simpl. rewrite broadcast_shapes_one_r. simpl.
  by rewrite (broadcast_to_id _ (replicate _ _)) by apply length_replicate.
Qed.

Lemma subtract_single_pred_length (truth d : list Q) (p : Q) :
  np.subtract truth [p] = Ok d -> length d = length truth.
Proof.
  intros Hd. pose proof (subtract_broadcast truth [p]) as Hsub.
  cbn [length] in Hsub. rewrite broadcast_shapes_one_r in Hsub.
  destruct Hsub as (d' & Hd' & Hlen). rewrite Hd in Hd'. by injection Hd' as <-.
Qed.

(** X8: a single truth or a single prediction stands for its repetition:
    each of the four loss functions returns, on a truth sequence of
    length 1, what it returns on that truth repeated once per prediction,
    and on a prediction sequence of length 1, what it returns on that
    prediction repeated once per truth. *)
Theorem single_value_is_repeated (P t p : Q) (truth pred : list Q) :
  (overprediction_penalty_objective P [t] pred
   = overprediction_penalty_objective P (replicate (length pred) t) pred
   /\ overprediction_penalty_squared P [t] pred
      = overprediction_penalty_squared P (replicate (length pred) t) pred
   /\ overprediction_penalty_absolute P [t] pred
      = overprediction_penalty_absolute P (replicate (length pred) t) pred
   /\ overprediction_penalty_custom P [t] pred
      = overprediction_penalty_custom P (replicate (length pred) t) pred)
  /\ (overprediction_penalty_objective P truth [p]
      = overprediction_penalty_objective P truth (replicate (length truth) p)
      /\ overprediction_penalty_squared P truth [p]
         = overprediction_penalty_squared P truth (replicate (length truth) p)
      /\ overprediction_penalty_absolute P truth [p]
         = overprediction_penalty_absolute P truth (replicate (length truth) p)
      /\ overprediction_penalty_custom P truth [p]
         = overprediction_penalty_custom P truth (replicate (length truth) p)).
Proof.
  unfold overprediction_penalty_objective, overprediction_penalty_squared,
    overprediction_penalty_absolute, overprediction_penalty_custom.
  split.
  - by rewrite subtract_single_truth.
  - rewrite <- subtract_single_pred. repeat split.
    destruct (np.subtract truth [p]) as [d|e] eqn:Hd; [|done]. simpl.
    apply subtract_single_pred_length in Hd. unfold np.astype_float.
    cbn [fmap list_fmap]. rewrite where_single_array, less_scalar_length, Hd.
    by rewrite fmap_replicate.
Qed.

Lemma custom_pair (P t p : Q) :
  exists v : Q,
    overprediction_penalty_custom P [t] [p]
    = Ok ("custom_penalty"%string, np.Finite v, false)
    /\ v == Spec.winnings_loss (t, p).
Proof.
  rewrite custom_same_length by done.
  cbn [zip_with fmap list_fmap np.mean np.sum foldr length].
  eexists. split; [done|]. change (inject_Z (Z.of_nat 1)) with 1. field.
Qed.

(** X9: the Winnings-Approximation Eval ranks an over-prediction ahead of an
    exact prediction: for a truth [t >= 0] and predictions
    [t < p < p'], its value on the pair ([t], [p']) is below its value on
    ([t], [p]), which is below the value 0 it gives to the exact
    prediction ([t], [t]); it reports lower values as better (the flag is
    [False]) and never looks at the penalty. *)
Theorem custom_prefers_overprediction (P t p p' : Q) :
  0 <= t -> t < p -> p < p' ->
  exists v v' z : Q,
    overprediction_penalty_custom P [t] [p]
    = Ok ("custom_penalty"%string, np.Finite v, false)
    /\ overprediction_penalty_custom P [t] [p']
       = Ok ("custom_penalty"%string, np.Finite v', false)
    /\ overprediction_penalty_custom P [t] [t]
       = Ok ("custom_penalty"%string, np.Finite z, false)
    /\ v == - p /\ v' == - p' /\ z == 0
    /\ v' < v /\ v < z.
Proof.
  intros Ht Hp Hp'.
  destruct (custom_pair P t p) as (v & Hrun & Hv).
  destruct (custom_pair P t p') as (v' & Hrun' & Hv').
  destruct (custom_pair P t t) as (z & Hrunz & Hz).
  unfold Spec.winnings_loss in Hv, Hv', Hz. cbn [fst snd] in Hv, Hv', Hz.
  destruct (Qlt_le_dec (t - p) 0); [|lra].
  destruct (Qlt_le_dec (t - p') 0); [|lra].
  destruct (Qlt_le_dec (t - t) 0); [lra|].
  exists v, v', z. do 3 (split; [done|]). repeat split; lra.
Qed.

Lemma custom_prefers_overprediction_witness :
  exists v v' z : Q,
    overprediction_penalty_custom 3 [10] [11]
    = Ok ("custom_penalty"%string, np.Finite v, false)
    /\ overprediction_penalty_custom 3 [10] [12]
       = Ok ("custom_penalty"%string, np.Finite v', false)
    /\ overprediction_penalty_custom 3 [10] [10]
       = Ok ("custom_penalty"%string, np.Finite z, false)
    /\ v == - 11 /\ v' == - 12 /\ z == 0
    /\ v' < v /\ v < z.
Proof.
  apply (custom_prefers_overprediction 3 10 11 12);
    [discriminate|reflexivity|reflexivity].
Defined.

(** ** The Outcome Scorer beyond the claims *)

Lemma calculate_winnings_report (ts ps : list Q) :
  let df := price_is_right.winning_df (price_is_right.__init__ ts ps) in
  price_is_right.calculate_winnings (price_is_right.__init__ ts ps)
  = price_is_right.mk ts ps
      (Some (pd.sum (pd.winnings df)))
      (Some (pd.sum (pd.winning_percent df)))
      (Some (length (List.filter (fun tp => Qeq_bool (row_winnings tp) 0)
                       (zip ts ps)))).
Proof.
  intros df. rewrite <- (overpredicted_zero_rows ts ps). reflexivity.
Qed.

Lemma report_exact (ts ps : list Q) :
  Spec.report_in_int64 ts ps ->
  exists (W N : Q) (k : nat),
    price_is_right.calculate_winnings (price_is_right.__init__ ts ps)
    = price_is_right.mk ts ps (Some W) (Some N) (Some k)
    /\ W == Spec.total (row_winnings <$> zip ts ps)
    /\ N == Spec.total (row_winning_percent <$> zip ts ps)
    /\ k = length (List.filter (fun tp => Qeq_bool (row_winnings tp) 0) (zip ts ps)).
Proof.
  intros [Hw Hn].
  rewrite <- winnings_rows_rewards in Hw.
  rewrite <- winning_percent_rows_rewards in Hn.
  rewrite calculate_winnings_report.
  eexists _, _, _. split; [reflexivity|]. split; [|split; [|reflexivity]].
  - apply winnings_sum_exact. by right.
  - apply winning_percent_sum_exact. by right.
Qed.

Lemma count_succ (n : nat) :
  inject_Z (Z.of_nat (S n)) == inject_Z (Z.of_nat n) + 1.
Proof. rewrite Nat2Z.inj_succ, <- Z.add_1_r, inject_Z_plus. reflexivity. Qed.

Lemma filter_length_le {A : Type} (f : A -> bool) (l : list A) :
  (length (List.filter f l) <= length l)%nat.
Proof. induction l as [|x l IH]; simpl; [lia|]. destruct (f x); simpl; lia. Qed.

Lemma row_bounds (t p : Q) :
  0 < t ->
  row_winnings (t, p) <= t
  /\ (Qeq_bool (row_winnings (t, p)) 0 = true -> row_winning_percent (t, p) == 0)
  /\ row_winning_percent (t, p) <= 1.
Proof.
  intros Ht. unfold row_winnings, row_winning_percent. cbn [fst snd].
  destruct (Qle_bool p t) eqn:Hpt.
  - apply Qle_bool_iff in Hpt. split; [done|]. split.
    + intros Hp0. apply Qeq_bool_iff in Hp0. rewrite Hp0. field. lra.
    + apply Qle_shift_div_r; lra.
  - split; [lra|]. split; [reflexivity|lra].
Qed.

Lemma rows_bounds (rows : list (Q * Q)) :
  Forall (fun tp => 0 < tp.1) rows ->
  Spec.total (row_winnings <$> rows) <= Spec.total rows.*1
  /\ Spec.total (row_winning_percent <$> rows)
     + inject_Z (Z.of_nat
         (length (List.filter (fun tp => Qeq_bool (row_winnings tp) 0) rows)))
     <= inject_Z (Z.of_nat (length rows)).
Proof.
  induction 1 as [|[t p] rows Ht _ [IHw IHn]];
    cbn [fmap list_fmap Spec.total List.filter length fst].
  - split; [lra|]. change (inject_Z (Z.of_nat 0)) with 0. lra.
  - destruct (row_bounds t p Ht) as (Hw & Hzero & Hone).
    split; [lra|]. rewrite count_succ.
    destruct (Qeq_bool (row_winnings (t, p)) 0) eqn:Hz; cbn [length].
    + rewrite count_succ. specialize (Hzero eq_refl). lra.
    + lra.
Qed.

Lemma zip_truths_positive (ts ps : list Q) :
  Forall (fun t => 0 < t) ts -> Forall (fun tp : Q * Q => 0 < tp.1) (zip ts ps).
Proof.
  intros Hts. apply Forall_lookup. intros i [t p] Hi.
  apply lookup_zip_with_Some in Hi as (t' & p' & [= <- <-] & Ht & _).
  rewrite Forall_lookup in Hts. by apply (Hts i).
Qed.

(** X10: the report stays within the pair set: for positive truths, and
    as long as the sums of the winnings and of the normalized winnings of
    the pairs lie within the int64 range, the total winnings are at most
    the sum of the truths of the scored pairs, and the normalized
    winnings plus the over-prediction count are at most the number of
    scored pairs, itself at most the number of predictions. *)
Theorem report_bounds (ts ps : list Q) :
  Forall (fun t => 0 < t) ts ->
  Spec.report_in_int64 ts ps ->
  exists (W N : Q) (k : nat),
    price_is_right.calculate_winnings (price_is_right.__init__ ts ps)
    = price_is_right.mk ts ps (Some W) (Some N) (Some k)
    /\ W <= Spec.total (zip ts ps).*1
    /\ N + inject_Z (Z.of_nat k) <= inject_Z (Z.of_nat (length (zip ts ps)))
    /\ (k <= length (zip ts ps) <= length ps)%nat.
Proof.
  intros Hts Hrange.
  destruct (report_exact ts ps Hrange) as (W & N & k & Hrun & HW & HN & ->).
  eexists W, N, _. split; [exact Hrun|].
  destruct (rows_bounds (zip ts ps) (zip_truths_positive ts ps Hts)) as [Hw Hn].
  rewrite HW, HN. split; [exact Hw|]. split; [exact Hn|]. split.
  - apply filter_length_le.
  - rewrite length_zip_with. lia.
Qed.

Lemma report_bounds_witness :
  exists (W N : Q) (k : nat),
    price_is_right.calculate_winnings (price_is_right.__init__ [10; 10] [7; 11])
    = price_is_right.mk [10; 10] [7; 11] (Some W) (Some N) (Some k)
    /\ W <= Spec.total (zip [10; 10] [7; 11]).*1
    /\ N + inject_Z (Z.of_nat k) <= inject_Z (Z.of_nat (length (zip [10; 10] [7; 11])))
    /\ (k <= length (zip [10; 10] [7; 11]) <= length [7; 11])%nat.
Proof.
  apply (report_bounds [10; 10] [7; 11]); [repeat constructor|].
  split; split; discriminate.
Defined.

Lemma selects_all_perfect (ts : list Q) :
  ts <> [] -> pd.selects_all (pd.le (zip ts ts).*2 (zip ts ts).*1) = true.
Proof.
  intros Hne. assert (Hall : forallb (fun m : bool => m)
                               (pd.le (zip ts ts).*2 (zip ts ts).*1) = true).
  { clear Hne. unfold pd.le. induction ts as [|t ts IH]; [done|].
    cbn [zip_with fmap list_fmap forallb fst snd].
    rewrite IH, andb_true_r. apply Qle_bool_iff. lra. }
  destruct ts as [|t ts]; [done|]. exact Hall.
Qed.

Lemma perfect_dtype (ts : list Q) :
  ts <> [] ->
  let df := price_is_right.winning_df (price_is_right.__init__ ts ts) in
  pd.dtype_of (pd.winnings df) = pd.float64
  /\ pd.dtype_of (pd.winning_percent df) = pd.float64.
Proof.
  intros Hne. unfold price_is_right.winning_df, price_is_right.__init__.
  cbn [price_is_right.truths price_is_right.preds pd.winnings pd.winning_percent].
  unfold pd.loc_setitem. cbn [pd.full_int64 pd.dtype_of].
  by rewrite selects_all_perfect.
Qed.

Lemma perfect_rows (ts : list Q) :
  Forall (fun t => ~ t == 0) ts ->
  Spec.total (row_winnings <$> zip ts ts) == Spec.total ts
  /\ Spec.total (row_winning_percent <$> zip ts ts)
     == inject_Z (Z.of_nat (length ts))
  /\ List.filter (fun tp => Qeq_bool (row_winnings tp) 0) (zip ts ts) = [].
Proof.
  induction 1 as [|t ts Ht _ (IHw & IHn & IHk)];
    cbn [zip_with fmap list_fmap Spec.total List.filter length].
  - repeat split; reflexivity.
  - unfold row_winnings at 1 3, row_winning_percent at 1. cbn [fst snd].
    assert (Qle_bool t t = true) as -> by (apply Qle_bool_iff; lra).
    assert (Qeq_bool t 0 = false) as ->.
    { apply not_true_iff_false. by rewrite Qeq_bool_iff. }
    rewrite IHw, IHn, IHk, count_succ. split; [reflexivity|].
    split; [|reflexivity]. field. done.
Qed.

(** X11: predicting every truth exactly earns everything: when the
    predictions are the truths themselves and no truth is zero, the total
    winnings are the sum of the truths, the normalized winnings are the
    number of pairs and no pair is counted as over-predicted. *)
Theorem perfect_predictions_win_all (ts : list Q) :
  Forall (fun t => ~ t == 0) ts ->
  exists W N : Q,
    price_is_right.calculate_winnings (price_is_right.__init__ ts ts)
    = price_is_right.mk ts ts (Some W) (Some N) (Some 0%nat)
    /\ W == Spec.total ts
    /\ N == inject_Z (Z.of_nat (length ts)).
Proof.
  intros Hts.
  destruct (perfect_rows ts Hts) as (Hw & Hn & Hk).
  rewrite calculate_winnings_report, Hk.
  eexists _, _. split; [reflexivity|].
  destruct ts as [|t ts]; [split; reflexivity|].
  destruct (perfect_dtype (t :: ts)) as [Hdw Hdn]; [done|].
  split.
  - rewrite <- Hw. apply winnings_sum_exact. by left.
  - rewrite <- Hn. apply winning_percent_sum_exact. by left.
Qed.

Lemma perfect_predictions_win_all_witness :
  exists W N : Q,
    price_is_right.calculate_winnings (price_is_right.__init__ [10; 20] [10; 20])
    = price_is_right.mk [10; 20] [10; 20] (Some W) (Some N) (Some 0%nat)
    /\ W == 30 /\ N == 2.
Proof.
  destruct (perfect_predictions_win_all [10; 20]) as (W & N & Hrun & HW & HN);
    [repeat constructor; discriminate|].
  exists W, N. split; [exact Hrun|]. split; [rewrite HW|rewrite HN]; reflexivity.
Defined.

Lemma total_app (l k : list Q) :
  Spec.total (l ++ k) == Spec.total l + Spec.total k.
Proof.
  induction l as [|x l IH]; cbn [app Spec.total]; [lra|]. rewrite IH. lra.
Qed.

(** X12: scoring is additive over batches: when the first batch pairs
    its truths and predictions one to one, no truth is zero and the sums
    of the winnings and of the normalized winnings lie within the int64
    range for each batch and for both together, the report on two
    batches put end to end has the sum of their total winnings, the sum
    of their normalized winnings and the sum of their over-prediction
    counts. *)
Theorem report_of_concatenation (ts1 ps1 ts2 ps2 : list Q) :
  length ts1 = length ps1 ->
  Forall (fun t => ~ t == 0) (ts1 ++ ts2) ->
  Spec.report_in_int64 ts1 ps1 ->
  Spec.report_in_int64 ts2 ps2 ->
  Spec.report_in_int64 (ts1 ++ ts2) (ps1 ++ ps2) ->
  exists (W1 N1 W2 N2 W N : Q) (k1 k2 : nat),
    price_is_right.calculate_winnings (price_is_right.__init__ ts1 ps1)
    = price_is_right.mk ts1 ps1 (Some W1) (Some N1) (Some k1)
    /\ price_is_right.calculate_winnings (price_is_right.__init__ ts2 ps2)
       = price_is_right.mk ts2 ps2 (Some W2) (Some N2) (Some k2)
    /\ price_is_right.calculate_winnings
         (price_is_right.__init__ (ts1 ++ ts2) (ps1 ++ ps2))
       = price_is_right.mk (ts1 ++ ts2) (ps1 ++ ps2)
           (Some W) (Some N) (Some (k1 + k2)%nat)
    /\ W == W1 + W2 /\ N == N1 + N2.
Proof.
  intros Hlen _ Hr1 Hr2 Hr.
  destruct (report_exact ts1 ps1 Hr1) as (W1 & N1 & k1 & Hrun1 & HW1 & HN1 & Hk1).
  destruct (report_exact ts2 ps2 Hr2) as (W2 & N2 & k2 & Hrun2 & HW2 & HN2 & Hk2).
  destruct (report_exact _ _ Hr) as (W & N & k & Hrun & HW & HN & Hk).
  rewrite (zip_with_app pair ts1 ts2 ps1 ps2 Hlen) in HW, HN, Hk.
  rewrite fmap_app, total_app in HW, HN.
  rewrite List.filter_app, length_app, <- Hk1, <- Hk2 in Hk. subst k.
  exists W1, N1, W2, N2, W, N, k1, k2.
  do 3 (split; [done|]). rewrite HW, HN, HW1, HW2, HN1, HN2. split; reflexivity.
Qed.

Lemma report_of_concatenation_witness :
  exists (W1 N1 W2 N2 W N : Q) (k1 k2 : nat),
    price_is_right.calculate_winnings (price_is_right.__init__ [10] [7])
    = price_is_right.mk [10] [7] (Some W1) (Some N1) (Some k1)
    /\ price_is_right.calculate_winnings (price_is_right.__init__ [10] [11])
       = price_is_right.mk [10] [11] (Some W2) (Some N2) (Some k2)
    /\ price_is_right.calculate_winnings
         (price_is_right.__init__ ([10] ++ [10]) ([7] ++ [11]))
       = price_is_right.mk ([10] ++ [10]) ([7] ++ [11])
           (Some W) (Some N) (Some (k1 + k2)%nat)
    /\ W == W1 + W2 /\ N == N1 + N2.
Proof.
  apply (report_of_concatenation [10] [7] [10] [11]);
    [reflexivity|repeat constructor; discriminate
    |split; split; discriminate|split; split; discriminate
    |split; split; discriminate].
Defined.

Lemma le_bool_scale (c t p : Q) : 0 < c -> Qle_bool (c * p) (c * t) = Qle_bool p t.
Proof.
  intros Hc. destruct (Qle_bool p t) eqn:Hpt.
  - apply Qle_bool_iff in Hpt. apply Qle_bool_iff. nra.
  - apply le_bool_false in Hpt. apply le_bool_false. nra.
Qed.

Lemma eq_bool_scale (c w : Q) : 0 < c -> Qeq_bool (c * w) 0 = Qeq_bool w 0.
Proof.
  intros Hc. destruct (Qeq_bool w 0) eqn:Hw.
  - apply Qeq_bool_iff in Hw. apply Qeq_bool_iff. rewrite Hw. ring.
  - apply not_true_iff_false. apply not_true_iff_false in Hw.
    rewrite Qeq_bool_iff in *. intros H0. apply Hw.
    apply Qmult_integral in H0. lra.
Qed.

Lemma row_winnings_scale (c t p : Q) :
  0 < c -> row_winnings (c * t, c * p) == c * row_winnings (t, p).
Proof.
  intros Hc. unfold row_winnings. cbn [fst snd].
  rewrite (le_bool_scale c t p Hc). destruct (Qle_bool p t); ring.
Qed.

Lemma row_winning_percent_scale (c t p : Q) :
  0 < c -> ~ t == 0 ->
  row_winning_percent (c * t, c * p) == row_winning_percent (t, p).
Proof.
  intros Hc Ht. unfold row_winning_percent. cbn [fst snd].
  rewrite (le_bool_scale c t p Hc). destruct (Qle_bool p t); [|reflexivity].
  field. split; lra.
Qed.

Lemma zero_row_scale (c t p : Q) :
  0 < c ->
  Qeq_bool (row_winnings (c * t, c * p)) 0 = Qeq_bool (row_winnings (t, p)) 0.
Proof.
  intros Hc. unfold row_winnings. cbn [fst snd].
  rewrite (le_bool_scale c t p Hc). destruct (Qle_bool p t); [|done].
  by apply eq_bool_scale.
Qed.

Lemma scaled_rows (c : Q) (ts ps : list Q) :
  0 < c -> Forall (fun t => ~ t == 0) ts ->
  let rows := zip ts ps in
  let rows' := zip (Qmult c <$> ts) (Qmult c <$> ps) in
  Spec.total (row_winnings <$> rows') == c * Spec.total (row_winnings <$> rows)
  /\ Spec.total (row_winning_percent <$> rows')
     == Spec.total (row_winning_percent <$> rows)
  /\ length (List.filter (fun tp => Qeq_bool (row_winnings tp) 0) rows')
     = length (List.filter (fun tp => Qeq_bool (row_winnings tp) 0) rows).
Proof.
  intros Hc Hts. cbn zeta. revert ps.
  induction Hts as [|t ts Ht _ IH]; intros [|p ps];
    cbn [zip_with fmap list_fmap Spec.total List.filter length];
    try (repeat split; (reflexivity || ring)).
  destruct (IH ps) as (IHw & IHn & IHk).
  rewrite (zero_row_scale c t p Hc), (row_winnings_scale c t p Hc),
    (row_winning_percent_scale c t p Hc Ht), IHw, IHn.
  split; [ring|]. split; [reflexivity|].
  destruct (Qeq_bool (row_winnings (t, p)) 0); cbn [length]; by rewrite IHk.
Qed.

(** X13: the normalized winnings do not depend on the currency:
    multiplying every truth (none of them zero) and every prediction by
    the same positive factor multiplies the total winnings by that factor
    and leaves the normalized winnings and the over-prediction count
    unchanged, as long as the sums of the winnings and of the normalized
    winnings lie within the int64 range before and after. *)
Theorem report_under_scaling (c : Q) (ts ps : list Q) :
  0 < c -> Forall (fun t => ~ t == 0) ts ->
  Spec.report_in_int64 ts ps ->
  Spec.report_in_int64 (Qmult c <$> ts) (Qmult c <$> ps) ->
  exists (W N W' N' : Q) (k : nat),
    price_is_right.calculate_winnings (price_is_right.__init__ ts ps)
    = price_is_right.mk ts ps (Some W) (Some N) (Some k)
    /\ price_is_right.calculate_winnings
         (price_is_right.__init__ (Qmult c <$> ts) (Qmult c <$> ps))
       = price_is_right.mk (Qmult c <$> ts) (Qmult c <$> ps)
           (Some W') (Some N') (Some k)
    /\ W' == c * W /\ N' == N.
Proof.
  intros Hc Hts Hr Hr'.
  destruct (report_exact ts ps Hr) as (W & N & k & Hrun & HW & HN & Hk).
  destruct (report_exact _ _ Hr') as (W' & N' & k' & Hrun' & HW' & HN' & Hk').
  destruct (scaled_rows c ts ps Hc Hts) as (Hw & Hn & Hcount).
  rewrite Hcount, <- Hk in Hk'. subst k'.
  exists W, N, W', N', k. do 2 (split; [done|]).
  rewrite HW', HN', HW, HN. by split.
Qed.

Lemma report_under_scaling_witness :
  exists (W N W' N' : Q) (k : nat),
    price_is_right.calculate_winnings (price_is_right.__init__ [10; 10] [7; 11])
    = price_is_right.mk [10; 10] [7; 11] (Some W) (Some N) (Some k)
    /\ price_is_right.calculate_winnings
         (price_is_right.__init__ (Qmult 100 <$> [10; 10]) (Qmult 100 <$> [7; 11]))
       = price_is_right.mk (Qmult 100 <$> [10; 10]) (Qmult 100 <$> [7; 11])
           (Some W') (Some N') (Some k)
    /\ W' == 100 * W /\ N' == N.
Proof.
  apply (report_under_scaling 100 [10; 10] [7; 11]);
    [reflexivity|repeat constructor; discriminate
    |split; split; discriminate|split; split; discriminate].
Defined.

(** ** [print_results] *)

(** X14: [print_results] can be called on any object, also one on which
    [calculate_winnings] never ran: it first runs [calculate_winnings],
    so no attribute is missing, and prints three lines that carry the
    attributes just computed.  The over-prediction count [k] is printed
    over the number of predictions, which it never exceeds, even when
    fewer pairs were scored because the truths are fewer.  The object it
    leaves is the one [calculate_winnings] leaves, and calling it again
    on that object prints the same lines. *)
Theorem print_results_report (self : price_is_right.t) :
  exists (W N : Q) (k : nat),
    let done := price_is_right.calculate_winnings self in
    let lines :=
      [[fstring.Text "OVERPREDICTED: "; fstring.Int k; fstring.Text "/";
        fstring.Int (length (price_is_right.preds self))];
       [fstring.Text "STANDARDIZED WINNINGS: "; fstring.Float N];
       [fstring.Text "TOTAL WINNINGS: "; fstring.Float W]] in
    print_results self = Some (done, lines)
    /\ price_is_right.winnings done = Some W
    /\ price_is_right.winning_percent done = Some N
    /\ price_is_right.overpredicted done = Some k
    /\ (k <= length (price_is_right.preds self))%nat
    /\ print_results done = Some (done, lines).
Proof.
  pose proof (overpredicted_zero_rows (price_is_right.truths self)
                (price_is_right.preds self)) as Hk.
  change (price_is_right.calculate_winnings
            (price_is_right.__init__ (price_is_right.truths self)
               (price_is_right.preds self)))
    with (price_is_right.calculate_winnings self) in Hk.
  eexists _, _, _. cbn zeta. split.
  { unfold print_results. cbn zeta. rewrite Hk. reflexivity. }
  do 2 (split; [reflexivity|]). split; [exact Hk|]. split.
  - etrans; [apply filter_length_le|]. rewrite length_zip_with. lia.
  - unfold print_results. cbn zeta.
    change (price_is_right.calculate_winnings
              (price_is_right.calculate_winnings self))
      with (price_is_right.calculate_winnings self).
    rewrite Hk. reflexivity.
Qed.
